(** * ose_core.pipelines.extractors: a shallow embedding

    The extractors of [src/ose_core/pipelines/extractors.py] turn batches of
    JSON records into flat rows keyed by (company_name, siren, siret).  This
    file embeds the value layer the code runs on (JSON values as Python sees
    them, [pd.isna], [str], [float], [int], format specifications), then the
    functions themselves, and proves properties of them.

    Conventions of the embedding.
    - A Python exception is a [Raise] result; [try]/[except] is [catch] or
      [try_or].
    - A [dict] is an association list in insertion order, keys unique.
    - A row of a DataFrame ([pd.Series] from [iterrows]) is the association
      list of its cells; [DataFrame] builds the frame of a list of records,
      with NaN in the cells a record does not fill.  Cells keep the record's
      values (the numeric up-casts of pandas columns are not modelled), and
      a frame carries the default index, so the columns [safe_get] makes up
      line up with its own.
    - Strings are ASCII strings.
    - Three facts of the Python runtime are parameters ([runtime]): the
      truth value NumPy gives an empty array (False with a warning before
      2.2, ValueError from 2.2 on), [repr] of finite floats and of
      containers, and [json.loads].  The statements hold for every
      runtime. *)

From Stdlib Require Import ZArith List String Ascii Bool Lia Sorted Permutation.
Import ListNotations.
Local Open Scope string_scope.
Local Open Scope Z_scope.
Set Warnings "-register-all".

(** ** Exceptions and results *)

Inductive exn : Type := ValueError | TypeError | OverflowError.

Inductive result (A : Type) : Type :=
| Ok (a : A)
| Raise (e : exn).
Arguments Ok {A} a.
Arguments Raise {A} e.

Definition bind {A B : Type} (r : result A) (k : A -> result B) : result B :=
  match r with
  | Ok a => k a
  | Raise e => Raise e
  end.

Notation "x <- r ;; k" := (bind r (fun x => k))
  (at level 61, r at next level, right associativity).

(** [try: r except (ValueError, TypeError): h] and [except Exception]: every
    exception the guarded blocks of this model can raise is caught by
    either handler. *)
Definition catch {A : Type} (r : result A) (h : result A) : result A :=
  match r with
  | Ok a => Ok a
  | Raise _ => h
  end.

Fixpoint mapM {A B : Type} (f : A -> result B) (l : list A) : result (list B) :=
  match l with
  | [] => Ok []
  | a :: l' => b <- f a ;; bs <- mapM f l' ;; Ok (b :: bs)
  end.

(** ** Python values *)

(** A binary64 float: NaN, an infinity, or [(-1)^neg * m * 2^e]. *)
Inductive pyfloat : Type :=
| FNan
| FInf (neg : bool)
| FFin (neg : bool) (m : Z) (e : Z).

Inductive pyval : Type :=
| VNone
| VBool (b : bool)
| VInt (z : Z)
| VFloat (f : pyfloat)
| VStr (s : string)
| VList (l : list pyval)
| VDict (d : list (string * pyval)).

Definition pydict : Type := list (string * pyval).

Definition NaN : pyval := VFloat FNan.

Inductive numpy_version : Type :=
| NumpyLegacy   (* bool(empty array) is False, with a DeprecationWarning *)
| NumpyStrict.  (* bool(empty array) raises ValueError *)

Record runtime : Type := {
  numpy : numpy_version;
  py_repr : pyval -> string;
  json_loads : string -> option pyval
}.

(** *** Dictionaries *)

Fixpoint dict_find (d : pydict) (k : string) : option pyval :=
  match d with
  | [] => None
  | (k', v) :: d' => if String.eqb k k' then Some v else dict_find d' k
  end.

(** [d.get(k, default)] *)
Definition dict_get (d : pydict) (k : string) (default : pyval) : pyval :=
  match dict_find d k with
  | Some v => v
  | None => default
  end.

(** [k in d] *)
Definition dict_has (d : pydict) (k : string) : bool :=
  match dict_find d k with
  | Some _ => true
  | None => false
  end.

(** [d[k] = v]: an existing key keeps its place, a new one goes last. *)
Fixpoint dict_set (d : pydict) (k : string) (v : pyval) : pydict :=
  match d with
  | [] => [(k, v)]
  | (k', v') :: d' =>
      if String.eqb k k' then (k', v) :: d' else (k', v') :: dict_set d' k v
  end.

(** [d.update(u)] *)
Definition dict_update (d u : pydict) : pydict :=
  fold_left (fun acc kv => dict_set acc (fst kv) (snd kv)) u d.

(** *** Truth, null, types *)

(** [bool(v)] *)
Definition truthy (v : pyval) : bool :=
  match v with
  | VNone => false
  | VBool b => b
  | VInt z => negb (z =? 0)
  | VFloat (FFin _ m _) => negb (m =? 0)
  | VFloat _ => true
  | VStr s => negb (String.eqb s "")
  | VList l => match l with [] => false | _ => true end
  | VDict d => match d with [] => false | _ => true end
  end.

(** pandas' [checknull] on one object: None and NaN are null. *)
Definition checknull (v : pyval) : bool :=
  match v with
  | VNone => true
  | VFloat FNan => true
  | _ => false
  end.

Definition is_dict (v : pyval) : bool :=
  match v with VDict _ => true | _ => false end.

Definition is_list (v : pyval) : bool :=
  match v with VList _ => true | _ => false end.

Definition is_str (v : pyval) : bool :=
  match v with VStr _ => true | _ => false end.

(** *** [pd.isna]

    A scalar gives a bool.  A list is first turned into an object array
    ([np.asarray(obj, dtype=object)]): its shape follows the nesting as long
    as all the lists of a level have one length, and [isna] is taken
    element by element. *)

Fixpoint common_prefix (a b : list nat) : list nat :=
  match a, b with
  | x :: a', y :: b' => if Nat.eqb x y then x :: common_prefix a' b' else []
  | _, _ => []
  end.

Fixpoint np_shape (v : pyval) : list nat :=
  match v with
  | VList l =>
      List.length l ::
        match map np_shape l with
        | [] => []
        | s :: ss => fold_left common_prefix ss s
        end
  | _ => []
  end.

(** The elements of the array, in order: what sits [d] levels down. *)
Fixpoint np_flat (d : nat) (v : pyval) : list pyval :=
  match d, v with
  | S d', VList l => flat_map (np_flat d') l
  | _, _ => [v]
  end.

Inductive na_mask : Type :=
| NaScalar (b : bool)
| NaArray (bs : list bool).

Definition pd_isna (v : pyval) : na_mask :=
  match v with
  | VList _ => NaArray (map checknull (np_flat (List.length (np_shape v)) v))
  | _ => NaScalar (checknull v)
  end.

(** [pd.notna] is the element-wise negation. *)
Definition pd_notna (v : pyval) : na_mask :=
  match pd_isna v with
  | NaScalar b => NaScalar (negb b)
  | NaArray bs => NaArray (map negb bs)
  end.

(** [bool(mask)], as [if mask:], [mask or ...], [mask and ...] and
    [not mask] take it. *)
Definition mask_bool (rt : runtime) (m : na_mask) : result bool :=
  match m with
  | NaScalar b => Ok b
  | NaArray [] =>
      match numpy rt with
      | NumpyLegacy => Ok false
      | NumpyStrict => Raise ValueError
      end
  | NaArray [b] => Ok b
  | NaArray (_ :: _ :: _) => Raise ValueError
  end.

(** ** Numbers and strings *)

(** *** Decimal numerals *)

Definition is_digit (c : ascii) : bool :=
  let n := nat_of_ascii c in ((48 <=? n) && (n <=? 57))%nat.

Definition digit_val (c : ascii) : Z := Z.of_nat (nat_of_ascii c) - 48.

Definition digit_char (d : Z) : ascii := ascii_of_nat (48 + Z.to_nat d).

Fixpoint all_digits (s : string) : bool :=
  match s with
  | EmptyString => true
  | String c s' => is_digit c && all_digits s'
  end.

(** The value of a digit string, most significant digit first. *)
Fixpoint digits_value (acc : Z) (s : string) : Z :=
  match s with
  | EmptyString => acc
  | String c s' => digits_value (10 * acc + digit_val c) s'
  end.

(** The [w] low decimal digits of [n], in front of [acc]. *)
Fixpoint digits_fixed (w : nat) (n : Z) (acc : string) : string :=
  match w with
  | O => acc
  | S w' => digits_fixed w' (n / 10) (String (digit_char (n mod 10)) acc)
  end.

Fixpoint ndigits_fuel (fuel : nat) (n : Z) : nat :=
  match fuel with
  | O => 1%nat
  | S f => if n <? 10 then 1%nat else S (ndigits_fuel f (n / 10))
  end.

(** The number of decimal digits of [n >= 0]. *)
Definition ndigits (n : Z) : nat := ndigits_fuel (Z.to_nat (Z.log2 n)) n.

(** [str(n)] for an [int]. *)
Definition int_str (n : Z) : string :=
  if n <? 0 then String "-" (digits_fixed (ndigits (- n)) (- n) "")
  else digits_fixed (ndigits n) n "".

(** [f"{n:014d}"]: sign-aware zero padding to width 14. *)
Definition format_014d (n : Z) : string :=
  if n <? 0 then String "-" (digits_fixed (Nat.max 13 (ndigits (- n))) (- n) "")
  else digits_fixed (Nat.max 14 (ndigits n)) n "".

(** A 14-character string of decimal digits. *)
Definition is_siret14 (s : string) : bool :=
  (String.length s =? 14)%nat && all_digits s.

(** *** [str.strip()] *)

Definition is_space (c : ascii) : bool :=
  let n := nat_of_ascii c in
  (((9 <=? n) && (n <=? 13)) || ((28 <=? n) && (n <=? 32)))%nat.

Fixpoint lstrip (s : string) : string :=
  match s with
  | String c s' => if is_space c then lstrip s' else s
  | EmptyString => EmptyString
  end.

Fixpoint rstrip (s : string) : string :=
  match s with
  | EmptyString => EmptyString
  | String c s' =>
      match rstrip s' with
      | EmptyString => if is_space c then EmptyString else String c EmptyString
      | r => String c r
      end
  end.

Definition strip (s : string) : string := rstrip (lstrip s).

(** *** [float(s)] and [int(x)] *)

(** The binary64 nearest to [n / d] (for [0 <= n], [0 < d]), ties to even;
    subnormals below [2^-1022], infinity from [2^1024] on. *)
Definition round64 (neg : bool) (n d : Z) : pyfloat :=
  if n =? 0 then FFin neg 0 0
  else
    let k := Z.log2 n - Z.log2 d in
    let above := if 0 <=? k then d * 2 ^ k <=? n else d <=? n * 2 ^ (- k) in
    let k' := if above then k else k - 1 in
    let e := Z.max (k' - 52) (-1074) in
    let num := if 0 <=? e then n else n * 2 ^ (- e) in
    let den := if 0 <=? e then d * 2 ^ e else d in
    let q := num / den in
    let r := num mod den in
    let q' := if (den <? 2 * r) || ((den =? 2 * r) && Z.odd q) then q + 1 else q in
    if (971 <? e) || ((e =? 971) && (2 ^ 53 <=? q')) then FInf neg
    else FFin neg q' e.

(** The float written [m * 10^e] in decimal. *)
Definition decimal_to_float (neg : bool) (m e : Z) : pyfloat :=
  if 0 <=? e then round64 neg (m * 10 ^ e) 1 else round64 neg m (10 ^ (- e)).

Definition lower (c : ascii) : ascii :=
  let n := nat_of_ascii c in
  if ((65 <=? n) && (n <=? 90))%nat then ascii_of_nat (n + 32) else c.

Fixpoint lower_str (s : string) : string :=
  match s with
  | EmptyString => EmptyString
  | String c s' => String (lower c) (lower_str s')
  end.

(** Underscores of a numeric literal: each one sits between two digits. *)
Fixpoint drop_underscores (prev : ascii) (s : string) : option string :=
  match s with
  | EmptyString => if Ascii.eqb prev "_" then None else Some EmptyString
  | String c s' =>
      if Ascii.eqb c "_" then
        if is_digit prev then drop_underscores c s' else None
      else if Ascii.eqb prev "_" && negb (is_digit c) then None
      else option_map (String c) (drop_underscores c s')
  end.

Fixpoint span_digits (s : string) : string * string :=
  match s with
  | EmptyString => (EmptyString, EmptyString)
  | String c s' =>
      if is_digit c then let (d, r) := span_digits s' in (String c d, r)
      else (EmptyString, s)
  end.

Definition split_sign (s : string) : bool * string :=
  match s with
  | String "-" s' => (true, s')
  | String "+" s' => (false, s')
  | _ => (false, s)
  end.

(** What follows the mantissa: nothing, or [e], a sign and digits. *)
Definition parse_exponent (s : string) : option Z :=
  match s with
  | EmptyString => Some 0
  | String c s' =>
      if Ascii.eqb (lower c) "e" then
        let (neg, r) := split_sign s' in
        let (d, r') := span_digits r in
        match d, r' with
        | String _ _, EmptyString =>
            Some (if neg then - digits_value 0 d else digits_value 0 d)
        | _, _ => None
        end
      else None
  end.

Definition parse_number (neg : bool) (s : string) : option pyfloat :=
  let (ip, r1) := span_digits s in
  let (fp, r2) :=
    match r1 with
    | String "." r => span_digits r
    | _ => (EmptyString, r1)
    end in
  if (String.length ip + String.length fp =? 0)%nat then None
  else
    match parse_exponent r2 with
    | Some ex =>
        Some (decimal_to_float neg (digits_value 0 (ip ++ fp))
                (ex - Z.of_nat (String.length fp)))
    | None => None
    end.

(** [float(s)] for a stripped string; [None] is ValueError. *)
Definition float_of_string (s : string) : option pyfloat :=
  match drop_underscores "000" s with
  | None => None
  | Some s1 =>
      let (neg, r) := split_sign s1 in
      let w := lower_str r in
      if String.eqb w "inf" || String.eqb w "infinity" then Some (FInf neg)
      else if String.eqb w "nan" then Some FNan
      else parse_number neg r
  end.

Definition py_float_str (s : string) : result pyfloat :=
  match float_of_string s with
  | Some f => Ok f
  | None => Raise ValueError
  end.

(** [int(f)] for a float: truncation toward zero. *)
Definition int_of_float (f : pyfloat) : result Z :=
  match f with
  | FNan => Raise ValueError
  | FInf _ => Raise OverflowError
  | FFin neg m e =>
      let z := if 0 <=? e then m * 2 ^ e else m / 2 ^ (- e) in
      Ok (if neg then - z else z)
  end.

(** *** [str(v)] *)

Definition py_str (rt : runtime) (v : pyval) : string :=
  match v with
  | VNone => "None"
  | VBool true => "True"
  | VBool false => "False"
  | VInt z => int_str z
  | VFloat FNan => "nan"
  | VFloat (FInf false) => "inf"
  | VFloat (FInf true) => "-inf"
  | VStr s => s
  | _ => py_repr rt v
  end.

(** [v == s] for a string literal [s]. *)
Definition eq_str (v : pyval) (s : string) : bool :=
  match v with
  | VStr s' => String.eqb s' s
  | _ => false
  end.

(** ** [format_siret] *)

Definition format_siret (rt : runtime) (siret : pyval) : result string :=
  na <- mask_bool rt (pd_isna siret) ;;
  if na || eq_str siret "" || eq_str siret "nan" then Ok ""
  else
    catch
      (match siret with
       | VBool b => Ok (format_014d (if b then 1 else 0))
       | VInt z => Ok (format_014d z)
       | VFloat f => z <- int_of_float f ;; Ok (format_014d z)
       | _ =>
           let val_str := strip (py_str rt siret) in
           if negb (String.eqb val_str "") && negb (String.eqb val_str "nan") then
             catch
               (f <- py_float_str val_str ;;
                z <- int_of_float f ;;
                Ok (format_014d z))
               (Ok val_str)
           else Ok ""
       end)
      (Ok (if truthy siret then py_str rt siret else "")).

(** [try: r except (ValueError, TypeError): return d] around a block whose
    value is [r]. *)
Definition try_or {A : Type} (r : result A) (d : A) : A :=
  match r with
  | Ok a => a
  | Raise _ => d
  end.

(** ** Rows and frames *)

(** [row.get(k)] and [row.get(k, default)] on a row of a frame. *)
Definition row_get (row : pydict) (k : string) : pyval := dict_get row k VNone.

Record frame : Type := {
  columns : list string;
  rows : list pydict
}.

Definition has_col (df : frame) (c : string) : bool :=
  existsb (String.eqb c) (columns df).

Definition add_keys (cols : list string) (r : pydict) : list string :=
  fold_left
    (fun acc kv => if existsb (String.eqb (fst kv)) acc then acc else (acc ++ [fst kv])%list)
    r cols.

(** [pd.DataFrame(records)]: the columns are the keys in order of first
    appearance, a cell a record does not fill is NaN.  The cells keep the
    values of the records: the dtype pandas then infers for each column
    (float64 for a column of numbers and nulls, which turns 2024 into
    2024.0 and None into NaN) is not modelled, so what is stated of a
    [DataFrame] is stated of cells that are strings, lists or mappings, of
    the NaN of a missing key, and of numbers with no null beside them. *)
Definition DataFrame (records : list pydict) : frame :=
  let cols := fold_left add_keys records [] in
  {| columns := cols;
     rows := map (fun r => map (fun c => (c, dict_get r c NaN)) cols) records |}.

(** The identity key of a row no company stands behind. *)
Definition empty_index : pydict :=
  [("company_name", VStr ""); ("siren", VStr ""); ("siret", VStr "")].

(** ** The helpers shared by the article and signal expanders *)

(** [safe_join(items)], separator [", "]. *)
Definition join_item (rt : runtime) (item : pyval) : string :=
  match item with
  | VDict d =>
      if dict_has d "label" then py_str rt (dict_get d "label" VNone)
      else if dict_has d "name" then py_str rt (dict_get d "name" VNone)
      else py_str rt item
  | _ => py_str rt item
  end.

Definition safe_join (rt : runtime) (items : pyval) : string :=
  match items with
  | VList l => String.concat ", " (map (join_item rt) l)
  | _ => if truthy items then py_str rt items else ""
  end.

(** [safe_get_list(value)] as nested in both [extract_chunk] methods (lines
    59-99 and 210-250, the same text), called with its default [None]: the
    result is [None] or a non-empty list.  A cell is a JSON value, so the
    [pd.Series] and [__iter__] branches do not apply. *)
Definition safe_get_list (rt : runtime) (value : pyval) : option (list pyval) :=
  match value with
  | VNone => None
  | _ =>
      match mask_bool rt (pd_isna value) with
      | Ok true => None
      | _ =>
          match value with
          | VList l => if (0 <? List.length l)%nat then Some l else None
          | _ => None
          end
      end
  end.

(** [not companies] for what [safe_get_list] returned. *)
Definition no_list (o : option (list pyval)) : bool :=
  match o with
  | None | Some [] => true
  | Some (_ :: _) => false
  end.

Definition list_or_empty (o : option (list pyval)) : list pyval :=
  match o with
  | Some l => l
  | None => []
  end.

(** ** [VectorizedArticleExtractor] *)

Module Article.

(** Lines 102-107: the company references the row fans out on. *)
Definition resolve_companies (rt : runtime) (row : pydict) : list pyval :=
  let companies := safe_get_list rt (row_get row "companies") in
  let companies :=
    if no_list companies then safe_get_list rt (row_get row "all_companies")
    else companies in
  list_or_empty companies.

(** Lines 114-121: the identity key of one reference. *)
Definition company_index (rt : runtime) (company : pyval) : result pydict :=
  match company with
  | VDict d =>
      siret <- format_siret rt (dict_get d "siret" (VStr "")) ;;
      Ok [("company_name", dict_get d "label" (VStr ""));
          ("siren", VStr (py_str rt (dict_get d "siren" (VStr ""))));
          ("siret", VStr siret)]
  | _ => Ok empty_index
  end.

(** Lines 129-143: a key of a nested object, [""] unless the cell is a dict. *)
Definition nested_field (rt : runtime) (v : pyval) (key : string) : pyval :=
  try_or
    (na <- mask_bool rt (pd_isna v) ;;
     Ok (if negb na && is_dict v
         then match v with VDict d => dict_get d key (VStr "") | _ => VStr "" end
         else VStr ""))
    (VStr "").

(** Lines 145-155: the [safe_get_list] of [_create_article_row]. *)
Definition row_list (rt : runtime) (value : pyval) (default : list pyval) : list pyval :=
  try_or
    (na <- mask_bool rt (pd_isna value) ;;
     Ok (if na then default
         else match value with VList l => l | _ => default end))
    default.

(** Lines 166-172. *)
Definition safe_get_scalar (rt : runtime) (value : pyval) (default : string) : string :=
  try_or
    (na <- mask_bool rt (pd_isna value) ;;
     Ok (if na then default
         else if truthy value then py_str rt value else default))
    default.

Definition count (l : list pyval) : pyval := VInt (Z.of_nat (List.length l)).

(** [_create_article_row(row, base_index)] *)
Definition create_article_row (rt : runtime) (row base_index : pydict) : pydict :=
  let author_name := nested_field rt (row_get row "author") "name" in
  let country_label := nested_field rt (row_get row "country") "label" in
  let signals_status := row_list rt (row_get row "signalsStatus") [] in
  let signals_type := row_list rt (row_get row "signalsType") [] in
  let sectors := row_list rt (row_get row "sectors") [] in
  let cities := row_list rt (row_get row "cities") [] in
  let sources := row_list rt (row_get row "sources") [] in
  let departments := row_list rt (row_get row "departments") [] in
  let all_companies := row_list rt (row_get row "all_companies") [] in
  let companies := row_list rt (row_get row "companies") [] in
  dict_update base_index
    [("title", VStr (safe_get_scalar rt (row_get row "title") ""));
     ("publishedAt", VStr (safe_get_scalar rt (row_get row "publishedAt") ""));
     ("author", author_name);
     ("signalsStatus", VStr (safe_join rt (VList signals_status)));
     ("signalsType", VStr (safe_join rt (VList signals_type)));
     ("country", country_label);
     ("sectors", VStr (safe_join rt (VList sectors)));
     ("cities", VStr (safe_join rt (VList cities)));
     ("sources", VStr (safe_join rt (VList sources)));
     ("departments", VStr (safe_join rt (VList departments)));
     ("all_companies_count", count all_companies);
     ("companies_count", count companies)].

(** Lines 102-122: the rows one input row appends to [articles_expanded]. *)
Definition extract_row (rt : runtime) (row : pydict) : result (list pydict) :=
  match resolve_companies rt row with
  | [] => Ok [create_article_row rt row empty_index]
  | companies =>
      mapM (fun company =>
              base_index <- company_index rt company ;;
              Ok (create_article_row rt row base_index))
           companies
  end.

(** The loop of [extract_chunk]: [articles_expanded] for a chunk. *)
Definition expand (rt : runtime) (chunk : frame) : result (list pydict) :=
  rs <- mapM (extract_row rt) (rows chunk) ;; Ok (List.concat rs).

(** [extract_chunk], on the extractor's [articles_list].  The table
    appended is kept as the list of row dicts handed to [pd.DataFrame]
    (line 125): their number, order and keys are those of the table; the
    dtype pandas infers for each of its columns is not modelled. *)
Definition extract_chunk (rt : runtime) (articles_list : list (list pydict))
    (chunk : frame) : result (list (list pydict)) :=
  articles_expanded <- expand rt chunk ;;
  Ok (match articles_expanded with
      | [] => articles_list
      | _ => (articles_list ++ [articles_expanded])%list
      end).

(** [get_datasets()["09_articles"]] *)
Definition get_datasets (articles_list : list (list pydict)) : list pydict :=
  List.concat articles_list.

End Article.

(** ** [VectorizedProjectExtractor] *)

Module Signal.

(** Lines 253-264. *)
Definition resolve_companies (rt : runtime) (row : pydict) : list pyval :=
  let companies := safe_get_list rt (row_get row "companies") in
  let companies :=
    if no_list companies then safe_get_list rt (row_get row "companiesmain")
    else companies in
  let companies :=
    if no_list companies then safe_get_list rt (row_get row "allCompanies")
    else companies in
  list_or_empty companies.

Definition resolve_sirets (rt : runtime) (row : pydict) : list pyval :=
  list_or_empty (safe_get_list rt (row_get row "sirets")).

(** [str(v) if v else ""] *)
Definition str_or_empty (rt : runtime) (v : pyval) : string :=
  if truthy v then py_str rt v else "".

(** Lines 272-284: the identity key of a company reference. *)
Definition company_index (rt : runtime) (company : pyval) : pydict :=
  match company with
  | VDict d =>
      let company_id := dict_get d "id" (VStr "") in
      [("company_name", VStr ""); ("siren", VStr (str_or_empty rt company_id));
       ("siret", VStr "")]
  | _ =>
      [("company_name", VStr ""); ("siren", VStr (str_or_empty rt company));
       ("siret", VStr "")]
  end.

(** Lines 289-298: the identity key of a SIRET entry. *)
Definition siret_index (rt : runtime) (siret_info : pyval) : result pydict :=
  siret <- match siret_info with
           | VDict d => format_siret rt (dict_get d "siret" (VStr ""))
           | _ => format_siret rt siret_info
           end ;;
  Ok [("company_name", VStr "");
      ("siren", VStr (if (9 <=? String.length siret)%nat
                      then String.substring 0 9 siret else ""));
      ("siret", VStr siret)].

(** Lines 307-311. *)
Definition is_not_na (rt : runtime) (value : pyval) : bool :=
  try_or (na <- mask_bool rt (pd_isna value) ;; Ok (negb na)) false.

(** Lines 313-323: the [safe_get_list] of [_create_signal_row]. *)
Definition row_list (rt : runtime) (value : pyval) (default : list pyval) : list pyval :=
  if negb (is_not_na rt value) then default
  else match value with VList l => l | _ => default end.

(** Lines 374-380. *)
Definition safe_get_scalar (rt : runtime) (value : pyval) (default : string) : string :=
  if negb (is_not_na rt value) then default
  else if truthy value then py_str rt value else default.

(** [x.get(key, "")] when [x] is a dict, else [str(x)]. *)
Definition label_or_str (rt : runtime) (x : pyval) : pyval :=
  match x with
  | VDict d => dict_get d "label" (VStr "")
  | _ => VStr (py_str rt x)
  end.

(** Lines 325-337. *)
Definition country_label (rt : runtime) (country : pyval) : pyval :=
  if is_not_na rt country then
    match country with
    | VList (x :: _) => label_or_str rt x
    | VDict d => dict_get d "label" (VStr "")
    | _ => VStr ""
    end
  else VStr "".

(** Lines 339-349. *)
Definition dept_label (rt : runtime) (dept : pyval) : pyval :=
  if is_not_na rt dept then
    match dept with
    | VList (x :: _) => label_or_str rt x
    | _ => VStr ""
    end
  else VStr "".

(** Lines 351-367: a key of [type] or [statut], [""] unless it is a dict. *)
Definition dict_field (rt : runtime) (v : pyval) (key : string) : pyval :=
  if is_not_na rt v && is_dict v
  then match v with VDict d => dict_get d key (VStr "") | _ => VStr "" end
  else VStr "".

Definition count (l : list pyval) : pyval := VInt (Z.of_nat (List.length l)).

(** [_create_signal_row(row, base_index)] *)
Definition create_signal_row (rt : runtime) (row base_index : pydict) : pydict :=
  let type_val := row_get row "type" in
  let continent := row_list rt (row_get row "continent") [] in
  let nature_op := row_list rt (row_get row "natureOp") [] in
  let companies := row_list rt (row_get row "companies") [] in
  let sirets := row_list rt (row_get row "sirets") [] in
  dict_update base_index
    [("continent", VStr (safe_join rt (VList continent)));
     ("country", country_label rt (row_get row "country"));
     ("departement", dept_label rt (row_get row "departement"));
     ("publishedAt", VStr (safe_get_scalar rt (row_get row "publishedAt") ""));
     ("isMain", VBool true);
     ("type", dict_field rt type_val "label");
     ("type_id", dict_field rt type_val "id");
     ("createdAt", VStr (safe_get_scalar rt (row_get row "createdAt") ""));
     ("statut", dict_field rt (row_get row "statut") "label");
     ("city_label", VStr (safe_get_scalar rt (row_get row "city_label") ""));
     ("city_zip_code", VStr (safe_get_scalar rt (row_get row "city_zip_code") ""));
     ("natureOp", VStr (safe_join rt (VList nature_op)));
     ("companies_count", count companies);
     ("sirets_count", count sirets)].

(** Lines 253-299: the rows one input row appends to [signals_expanded]. *)
Definition extract_row (rt : runtime) (row : pydict) : result (list pydict) :=
  let companies := resolve_companies rt row in
  let sirets := resolve_sirets rt row in
  match companies, sirets with
  | [], [] => Ok [create_signal_row rt row empty_index]
  | _, _ =>
      let company_rows :=
        map (fun company => create_signal_row rt row (company_index rt company))
            companies in
      siret_rows <-
        mapM (fun siret_info =>
                base_index <- siret_index rt siret_info ;;
                Ok (create_signal_row rt row base_index))
             sirets ;;
      Ok (company_rows ++ siret_rows)%list
  end.

Definition expand (rt : runtime) (chunk : frame) : result (list pydict) :=
  rs <- mapM (extract_row rt) (rows chunk) ;; Ok (List.concat rs).

(** [extract_chunk], on the extractor's [signals_list]: as for the
    articles, the table appended (line 302) is kept as the list of row
    dicts handed to [pd.DataFrame]. *)
Definition extract_chunk (rt : runtime) (signals_list : list (list pydict))
    (chunk : frame) : result (list (list pydict)) :=
  signals_expanded <- expand rt chunk ;;
  Ok (match signals_expanded with
      | [] => signals_list
      | _ => (signals_list ++ [signals_expanded])%list
      end).

(** [get_datasets()["08_signals"]] *)
Definition get_datasets (signals_list : list (list pydict)) : list pydict :=
  List.concat signals_list.

End Signal.

(** ** Equality of values ([==], as [in] uses it on a list)

    Numbers compare by value across [bool], [int] and [float]; NaN equals
    nothing; lists compare element by element, dicts key by key. *)

Inductive number : Type :=
| NumNan
| NumInf (neg : bool)
| NumFin (m e : Z).  (* m * 2^e, m signed *)

Definition as_number (v : pyval) : option number :=
  match v with
  | VBool b => Some (NumFin (if b then 1 else 0) 0)
  | VInt z => Some (NumFin z 0)
  | VFloat FNan => Some NumNan
  | VFloat (FInf neg) => Some (NumInf neg)
  | VFloat (FFin neg m e) => Some (NumFin (if neg then - m else m) e)
  | _ => None
  end.

Definition number_eq (a b : number) : bool :=
  match a, b with
  | NumInf s, NumInf t => Bool.eqb s t
  | NumFin m e, NumFin m' e' =>
      if e <=? e' then m =? m' * 2 ^ (e' - e) else m * 2 ^ (e - e') =? m'
  | _, _ => false
  end.

Fixpoint py_eq (a b : pyval) {struct a} : bool :=
  match a, b with
  | VNone, VNone => true
  | VStr s, VStr t => String.eqb s t
  | VList la, VList lb =>
      (fix all2 (la lb : list pyval) {struct la} : bool :=
         match la, lb with
         | [], [] => true
         | x :: la', y :: lb' => py_eq x y && all2 la' lb'
         | _, _ => false
         end) la lb
  | VDict da, VDict db =>
      (List.length da =? List.length db)%nat &&
      (fix all_in (da : list (string * pyval)) {struct da} : bool :=
         match da with
         | [] => true
         | (k, v) :: da' =>
             match dict_find db k with
             | Some v' => py_eq v v'
             | None => false
             end && all_in da'
         end) da
  | _, _ =>
      match as_number a, as_number b with
      | Some x, Some y => number_eq x y
      | _, _ => false
      end
  end.

(** ** [VectorizedCompanyExtractor] *)

Module Company.

(** *** The identity columns (lines 429-460) *)

(** [df[col]], the cells of a column. *)
Definition column (df : frame) (col : string) : list pyval :=
  map (fun row => row_get row col) (rows df).

(** [safe_get(df, col, default)] *)
Definition safe_get (df : frame) (col : string) (default : pyval) : list pyval :=
  if has_col df col then column df col
  else map (fun _ => default) (rows df).

(** [series.empty], [series.isna().all()] and [series.fillna("")] *)
Definition series_empty (s : list pyval) : bool :=
  match s with [] => true | _ => false end.

Definition all_na (s : list pyval) : bool := forallb checknull s.

Definition fillna (s : list pyval) : list pyval :=
  map (fun v => if checknull v then VStr "" else v) s.

(** The [for alt_col in ...] loop, with its [break]. *)
Fixpoint name_fallback (df : frame) (alts : list string) (series : list pyval)
  : list pyval :=
  match alts with
  | [] => series
  | alt_col :: alts' =>
      if has_col df alt_col then
        let series' := safe_get df alt_col (VStr "") in
        if negb (series_empty series') && negb (all_na series') then series'
        else name_fallback df alts' series'
      else name_fallback df alts' series
  end.

Definition alt_cols : list string := ["label"; "name"; "raison_sociale"].

Definition company_name_series (df : frame) : list pyval :=
  let series := safe_get df "socialName" (VStr "") in
  if series_empty series || all_na series
  then name_fallback df alt_cols series
  else series.

(** [.astype(str)] on the [siren] column, as pandas 2 has it: [str(x)] of
    every cell, a null one too. *)
Definition astype_str (rt : runtime) (s : list pyval) : list pyval :=
  map (fun v => VStr (py_str rt v)) s.

Fixpoint zip3 (a b : list pyval) (c : list string) : list pydict :=
  match a, b, c with
  | x :: a', y :: b', z :: c' =>
      [("company_name", x); ("siren", y); ("siret", VStr z)] :: zip3 a' b' c'
  | _, _, _ => []
  end.

(** [base_index], row by row.  Tables 01 to 06 are each [base_index.copy()]
    with the table's own columns set beside it ([pd.concat(axis=1)]), so
    their identity columns are these. *)
Definition base_index (rt : runtime) (df : frame) : result (list pydict) :=
  sirets <- mapM (format_siret rt) (safe_get df "siret" (VStr "")) ;;
  Ok (zip3 (fillna (company_name_series df))
           (fillna (astype_str rt (safe_get df "siren" (VStr ""))))
           sirets).

(** *** KPI rows (lines 613-703) *)

(** [str(row.get(k, "")) if pd.notna(row.get(k)) else ""] *)
Definition str_if_notna (rt : runtime) (row : pydict) (k : string) : result string :=
  b <- mask_bool rt (pd_notna (row_get row k)) ;;
  Ok (if b then py_str rt (dict_get row k (VStr "")) else "").

Definition year_rows (base_kpi : pydict) (kpi_data : pydict) : list pydict :=
  flat_map
    (fun item =>
       match snd item with
       | VDict year_kpis =>
           [dict_update (dict_set base_kpi "year" (VStr (fst item))) year_kpis]
       | _ => []
       end)
    kpi_data.

(** [extract_kpi_from_record(row, kpi_data)]: the rows it appends. *)
Definition extract_kpi_from_record (rt : runtime) (row : pydict) (kpi_data : pyval)
  : result (list pydict) :=
  b <- mask_bool rt (pd_notna kpi_data) ;;
  match kpi_data with
  | VDict d =>
      if b then
        name <- str_if_notna rt row "socialName" ;;
        siren <- str_if_notna rt row "siren" ;;
        b' <- mask_bool rt (pd_notna (row_get row "siret")) ;;
        siret <- (if b' then format_siret rt (dict_get row "siret" (VStr ""))
                  else Ok "") ;;
        Ok (year_rows [("company_name", VStr name); ("siren", VStr siren);
                       ("siret", VStr siret)] d)
      else Ok []
  | _ => Ok []
  end.

(** One step of the loop body: [Some rows] when the step reached its
    [continue], [None] when control falls to the next step. *)
Definition step : Type := result (option (list pydict)).

(** Steps 1, 2 and 4: a column of the frame holding the mapping. *)
Definition kpi_column (rt : runtime) (df : frame) (row : pydict) (col : string) : step :=
  if has_col df col then
    let kpi_data := row_get row col in
    b <- mask_bool rt (pd_notna kpi_data) ;;
    if b && is_dict kpi_data then
      rs <- extract_kpi_from_record rt row kpi_data ;; Ok (Some rs)
    else Ok None
  else Ok None.

(** [kpi_data = container.get("kpi")] and the test that follows. *)
Definition kpi_inside (rt : runtime) (row : pydict) (container : pydict) : step :=
  let kpi_data := dict_get container "kpi" VNone in
  if truthy kpi_data && is_dict kpi_data then
    rs <- extract_kpi_from_record rt row kpi_data ;; Ok (Some rs)
  else Ok None.

(** Steps 3 and 5: a container column, a dict or a JSON string of one. *)
Definition kpi_container (rt : runtime) (df : frame) (row : pydict) (col : string) : step :=
  if has_col df col then
    let container := row_get row col in
    b <- mask_bool rt (pd_notna container) ;;
    if b then
      match container with
      | VDict d => kpi_inside rt row d
      | VStr s =>
          if negb (String.eqb s "") then
            match json_loads rt s with
            | Some (VDict d) => kpi_inside rt row d
            | _ => Ok None
            end
          else Ok None
      | _ => Ok None
      end
    else Ok None
  else Ok None.

Definition or_else (s : step) (next : result (list pydict)) : result (list pydict) :=
  o <- s ;;
  match o with
  | Some rs => Ok rs
  | None => next
  end.

(** The body of the loop of lines 629-699 for one row. *)
Definition kpi_of_row (rt : runtime) (df : frame) (row : pydict) : result (list pydict) :=
  or_else (kpi_column rt df row "kpi")
  (or_else (kpi_column rt df row "computed.kpi")
  (or_else (kpi_container rt df row "computed")
  (or_else (kpi_column rt df row "v1legacy.kpi")
  (or_else (kpi_container rt df row "v1legacy")
  (Ok []))))).

Definition kpi_records (rt : runtime) (df : frame) : result (list pydict) :=
  rs <- mapM (kpi_of_row rt df) (rows df) ;; Ok (List.concat rs).

(** *** Embedded articles and signals (lines 705-772) *)

(** [x if isinstance(x, list) else [x]] *)
Definition as_list (v : pyval) : list pyval :=
  match v with
  | VList l => l
  | _ => [v]
  end.

Definition company_info (record : pydict) : pyval :=
  VDict [("label", dict_get record "socialName" (VStr ""));
         ("siren", dict_get record "siren" (VStr ""));
         ("siret", dict_get record "siret" (VStr ""))].

(** Lines 716-729 for one article: the copy with the record's company
    appended to its [companies] unless an equal reference is there.  [in]
    on anything but a list raises TypeError here.  The copy is shallow, so
    the append also reaches the article held by the record; nothing reads
    that article again. *)
Definition with_company (record : pydict) (article : pyval) : result pydict :=
  let article_with_company :=
    match article with
    | VDict d => d
    | _ => []
    end in
  let article_with_company :=
    if dict_has article_with_company "companies" then article_with_company
    else dict_set article_with_company "companies" (VList []) in
  match dict_get article_with_company "companies" VNone with
  | VList companies =>
      if existsb (py_eq (company_info record)) companies
      then Ok article_with_company
      else Ok (dict_set article_with_company "companies"
                 (VList (companies ++ [company_info record])%list))
  | _ => Raise TypeError
  end.

(** [extract_articles_from_record(record, articles_data)]: what it appends
    to [articles_records]. *)
Definition extract_articles_from_record (record : pydict) (articles_data : pyval)
  : result (list pydict) :=
  if negb (truthy articles_data) then Ok []
  else
    mapM (with_company record)
         (filter (fun article => truthy article && (is_dict article || is_list article))
                 (as_list articles_data)).

(** [if key in d and d[key]: extract_articles_from_record(record, d[key])] *)
Definition articles_at (record d : pydict) (key : string) : result (list pydict) :=
  if dict_has d key && truthy (dict_get d key VNone)
  then extract_articles_from_record record (dict_get d key VNone)
  else Ok [].

Definition articles_in (record d : pydict) : result (list pydict) :=
  a <- articles_at record d "article" ;;
  b <- articles_at record d "articles" ;;
  Ok (a ++ b)%list.

(** [if name in record and isinstance(record.get(name), dict): ...] *)
Definition articles_under (record : pydict) (name : string) : result (list pydict) :=
  match dict_find record name with
  | Some (VDict d) => articles_in record d
  | _ => Ok []
  end.

(** Lines 732-747 for one record. *)
Definition record_articles (record : pydict) : result (list pydict) :=
  a <- articles_in record record ;;
  b <- articles_under record "computed" ;;
  c <- articles_under record "v1legacy" ;;
  Ok (a ++ b ++ c)%list.

(** [[s if isinstance(s, dict) else {} for s in ... if s]] *)
Definition signal_dicts (v : pyval) : list pydict :=
  map (fun s => match s with VDict d => d | _ => [] end)
      (filter truthy (as_list v)).

(** Lines 749-758 for one record. *)
Definition record_signals (record : pydict) : list pydict :=
  if dict_has record "signals" && truthy (dict_get record "signals" VNone)
  then signal_dicts (dict_get record "signals" VNone)
  else if dict_has record "projects" && truthy (dict_get record "projects" VNone)
  then signal_dicts (dict_get record "projects" VNone)
  else [].

(** *** The extractor's state and [extract_chunk] *)

Record state : Type := {
  company_tables : list (list pydict);   (* the identity columns of 01 to 06 *)
  kpi_tables : list (list pydict);       (* 07_kpi_data *)
  articles_list : list (list pydict);    (* articles_extractor.articles_list *)
  signals_list : list (list pydict)      (* signals_extractor.signals_list *)
}.

Definition init : state :=
  {| company_tables := []; kpi_tables := []; articles_list := []; signals_list := [] |}.

(** Lines 760-765: the sub-batch goes to the article expander; whatever it
    raises is caught and logged, and its list is left as it was. *)
Definition forward_articles (rt : runtime) (articles_list : list (list pydict))
    (articles_records : list pydict) : list (list pydict) :=
  match articles_records with
  | [] => articles_list
  | _ => try_or (Article.extract_chunk rt articles_list (DataFrame articles_records))
                articles_list
  end.

(** Lines 767-772. *)
Definition forward_signals (rt : runtime) (signals_list : list (list pydict))
    (signals_records : list pydict) : list (list pydict) :=
  match signals_records with
  | [] => signals_list
  | _ => try_or (Signal.extract_chunk rt signals_list (DataFrame signals_records))
                signals_list
  end.

(** [extract_chunk(chunk_df)].  [chunk_df.to_dict("records")] is the list of
    the frame's rows.  Of tables 01 to 06 the state keeps the identity
    columns: the blocks of lines 462-611, which raise TypeError on a chunk
    whose [activity] or [activityLight] holds a cell that is no text, are
    [Tables.of_chunk] below and are left out here, so this is
    [extract_chunk] on the chunks on which those blocks return. *)
Definition extract_chunk (rt : runtime) (st : state) (chunk_df : frame) : result state :=
  index <- base_index rt chunk_df ;;
  kpis <- kpi_records rt chunk_df ;;
  articles <- mapM record_articles (rows chunk_df) ;;
  let signals := flat_map record_signals (rows chunk_df) in
  Ok {| company_tables := (company_tables st ++ [index])%list;
        kpi_tables := match kpis with
                      | [] => kpi_tables st
                      | _ => (kpi_tables st ++ [kpis])%list
                      end;
        articles_list := forward_articles rt (articles_list st) (List.concat articles);
        signals_list := forward_signals rt (signals_list st) signals |}.

(** [get_datasets()], the tables the claims are about. *)
Definition kpi_data (st : state) : list pydict := List.concat (kpi_tables st).
Definition articles (st : state) : list pydict := Article.get_datasets (articles_list st).
Definition signals (st : state) : list pydict := Signal.get_datasets (signals_list st).

End Company.

(** ** Reading rows *)

(** The identity key of an output row. *)
Definition identity (row : pydict) : pyval * pyval * pyval :=
  (dict_get row "company_name" VNone, dict_get row "siren" VNone,
   dict_get row "siret" VNone).

(** A cell that is there and not null. *)
Definition filled (row : pydict) (k : string) : bool :=
  match dict_find row k with
  | Some v => negb (checknull v)
  | None => false
  end.

Definition key_complete (row : pydict) : bool :=
  filled row "company_name" && filled row "siren" && filled row "siret".

(** The runtimes the closed examples run on; none of them depends on
    [py_repr] or [json_loads]. *)
Definition rt_strict : runtime :=
  {| numpy := NumpyStrict; py_repr := fun _ => "<repr>"; json_loads := fun _ => None |}.

Definition rt_legacy : runtime :=
  {| numpy := NumpyLegacy; py_repr := fun _ => "<repr>"; json_loads := fun _ => None |}.

(** ** Shapes of input the statements speak of *)

Definition prefix (p l : list nat) : Prop := exists t, l = (p ++ t)%list.

(** A list cell of real references (two or more elements, or one element
    that is neither null nor a list). *)
Definition reference_list (l : list pyval) : Prop :=
  (2 <= List.length l)%nat \/
  exists x, l = [x] /\ is_list x = false /\ checknull x = false.

(** A cell holding no list: the column is absent, the cell null, or the
    list empty. *)
Definition no_references (v : pyval) : Prop :=
  v = VNone \/ v = NaN \/ v = VList [].

(** A company reference whose [siret], if it has one, is not a list. *)
Definition siret_scalar (company : pyval) : Prop :=
  match company with
  | VDict d => is_list (dict_get d "siret" (VStr "")) = false
  | _ => True
  end.

(** A SIRET entry that is not a list, nor a dict holding one under [siret]. *)
Definition siret_entry_scalar (siret_info : pyval) : Prop :=
  match siret_info with
  | VDict d => is_list (dict_get d "siret" (VStr "")) = false
  | v => is_list v = false
  end.

(** *** The rows of one input row, as the fan-out claims give them *)

(** An article row keyed by a company reference: [label], [str(siren)] and
    the normalized [siret] of a mapping, the all-empty key for anything
    else. *)
Definition article_keyed (rt : runtime) (company : pyval) (r : pydict) : Prop :=
  match company with
  | VDict d =>
      exists siret,
        format_siret rt (dict_get d "siret" (VStr "")) = Ok siret /\
        identity r =
          (dict_get d "label" (VStr ""),
           VStr (py_str rt (dict_get d "siren" (VStr ""))),
           VStr siret)
  | _ => identity r = (VStr "", VStr "", VStr "")
  end.

(** The rows [block] of the article row [row]: one per reference of the
    resolved list, in order, each keyed by its reference; a [companies]
    cell that is a list of references is that list; one row with the
    all-empty key when neither [companies] nor [all_companies] holds a
    reference. *)
Definition fan_out (rt : runtime) (row : pydict) (block : list pydict) : Prop :=
  (Article.resolve_companies rt row <> [] ->
   List.length block = List.length (Article.resolve_companies rt row) /\
   Forall2 (article_keyed rt) (Article.resolve_companies rt row) block) /\
  (forall cs,
      row_get row "companies" = VList cs -> reference_list cs ->
      List.length block = List.length cs /\ Forall2 (article_keyed rt) cs block) /\
  (no_references (row_get row "companies") ->
   no_references (row_get row "all_companies") ->
   exists r, block = [r] /\ identity r = (VStr "", VStr "", VStr "")).

(** A signal row keyed by a company reference: no name, no [siret], and as
    [siren] the [str()] of the reference's [id] (of the reference itself
    when it is no mapping), empty when that is falsy. *)
Definition company_keyed (rt : runtime) (company : pyval) (r : pydict) : Prop :=
  identity r =
    (VStr "",
     VStr (Signal.str_or_empty rt
             match company with
             | VDict d => dict_get d "id" (VStr "")
             | _ => company
             end),
     VStr "").

(** A signal row keyed by a SIRET entry: no name, the normalized SIRET, and
    as [siren] its first nine characters, empty when it has fewer. *)
Definition siret_keyed (rt : runtime) (siret_info : pyval) (r : pydict) : Prop :=
  exists siret,
    format_siret rt match siret_info with
                    | VDict d => dict_get d "siret" (VStr "")
                    | _ => siret_info
                    end = Ok siret /\
    identity r =
      (VStr "",
       VStr (if (9 <=? String.length siret)%nat
             then String.substring 0 9 siret else ""),
       VStr siret).

(** The rows [block] of the signal row [row] when both resolved lists are
    non-empty: the company-keyed rows followed by the SIRET-keyed rows,
    m + n in all; cells that are lists of references are the resolved
    lists; 2 references and 3 entries give 5 rows. *)
Definition additive_union (rt : runtime) (row : pydict) (block : list pydict) : Prop :=
  (Signal.resolve_companies rt row <> [] ->
   Signal.resolve_sirets rt row <> [] ->
   exists company_rows siret_rows,
     block = (company_rows ++ siret_rows)%list /\
     Forall2 (company_keyed rt) (Signal.resolve_companies rt row) company_rows /\
     Forall2 (siret_keyed rt) (Signal.resolve_sirets rt row) siret_rows /\
     List.length block =
       (List.length (Signal.resolve_companies rt row) +
        List.length (Signal.resolve_sirets rt row))%nat) /\
  (forall cs ss,
      row_get row "companies" = VList cs -> reference_list cs ->
      row_get row "sirets" = VList ss -> reference_list ss ->
      List.length block = (List.length cs + List.length ss)%nat) /\
  (forall c1 c2 s1 s2 s3,
      row_get row "companies" = VList [c1; c2] ->
      row_get row "sirets" = VList [s1; s2; s3] ->
      List.length block = 5%nat).

(** *** The result of [format_siret], input by input *)

(** An input that normalizes to the empty string: null (a list of one null
    too), the empty string, the string "nan", or a value that is no number
    and whose string form is empty or "nan" once stripped. *)
Definition siret_blank (rt : runtime) (v : pyval) : bool :=
  try_or (mask_bool rt (pd_isna v)) false
  || eq_str v "" || eq_str v "nan"
  || match v with
     | VBool _ | VInt _ | VFloat _ => false
     | _ => let val_str := strip (py_str rt v) in
            String.eqb val_str "" || String.eqb val_str "nan"
     end.

(** The integer value of an input: [int(x)] for a number,
    [int(float(str(x).strip()))] for anything else; none when the
    conversion raises. *)
Definition siret_integer (rt : runtime) (v : pyval) : option Z :=
  match v with
  | VBool b => Some (if b then 1 else 0)
  | VInt z => Some z
  | VFloat f =>
      match int_of_float f with
      | Ok z => Some z
      | Raise _ => None
      end
  | _ =>
      match (f <- py_float_str (strip (py_str rt v)) ;; int_of_float f) with
      | Ok z => Some z
      | Raise _ => None
      end
  end.

(** *** The KPI candidates, as a chain *)

(** A column of the frame whose cell is a mapping: any mapping. *)
Definition column_mapping (df : frame) (row : pydict) (col : string) : option pydict :=
  if has_col df col then
    match row_get row col with
    | VDict d => Some d
    | _ => None
    end
  else None.

Definition nonempty_mapping (v : pyval) : option pydict :=
  match v with
  | VDict (item :: d) => Some (item :: d)
  | _ => None
  end.

(** A container column (a dict, or a non-empty string that parses to one)
    with a non-empty mapping under [kpi]. *)
Definition container_mapping (rt : runtime) (df : frame) (row : pydict) (col : string)
  : option pydict :=
  if has_col df col then
    match row_get row col with
    | VDict c => nonempty_mapping (dict_get c "kpi" VNone)
    | VStr s =>
        if String.eqb s "" then None
        else match json_loads rt s with
             | Some (VDict c) => nonempty_mapping (dict_get c "kpi" VNone)
             | _ => None
             end
    | _ => None
    end
  else None.

Definition kpi_candidates (rt : runtime) (df : frame) (row : pydict)
  : list (option pydict) :=
  [column_mapping df row "kpi";
   column_mapping df row "computed.kpi";
   container_mapping rt df row "computed";
   column_mapping df row "v1legacy.kpi";
   container_mapping rt df row "v1legacy"].

Definition kpi_cells : list string :=
  ["kpi"; "computed.kpi"; "computed"; "v1legacy.kpi"; "v1legacy"].

Fixpoint first_some {A : Type} (l : list (option A)) : option A :=
  match l with
  | [] => None
  | Some a :: _ => Some a
  | None :: l' => first_some l'
  end.

(** The [company_name] cells of the identity rows. *)
Definition company_names (index : list pydict) : list pyval :=
  map (fun r => dict_get r "company_name" VNone) index.

(** The end-to-end scenario: one company record with two embedded
    articles. *)
Definition company_record (name siren : string) (siret : Z) (first second : pydict)
  : pydict :=
  [("socialName", VStr name); ("siren", VStr siren); ("siret", VInt siret);
   ("articles", VList [VDict first; VDict second])].

(** The reference to the record's own company that [extract_chunk] builds. *)
Definition parent_info (name siren : string) (siret : Z) : pyval :=
  VDict [("label", VStr name); ("siren", VStr siren); ("siret", VInt siret)].

Definition parent_key (name siren : string) (siret : Z) : pyval * pyval * pyval :=
  (VStr name, VStr siren, VStr (format_014d siret)).

Module Examples.

Definition other : pydict :=
  [("label", VStr "Other"); ("siren", VStr "987654321");
   ("siret", VStr "98765432100011")].

Definition first_article : pydict :=
  [("title", VStr "A1"); ("companies", VList [VDict other])].

Definition second_article : pydict := [("title", VStr "A2")].

Definition acme : pydict :=
  company_record "Acme" "123456789" 12345678901234 first_article second_article.

Definition article_row : pydict :=
  [("title", VStr "Fusion");
   ("companies",
    VList [VDict [("label", VStr "Acme"); ("siren", VStr "123456789");
                  ("siret", VInt 12345678901234)];
           VDict [("label", VStr "Bolt"); ("siren", VStr "987654321");
                  ("siret", VStr "98765432100011")]])].

Definition signal_row : pydict :=
  [("companies", VList [VDict [("id", VStr "123456789")]; VDict [("id", VInt 42)]]);
   ("sirets", VList [VInt 12345678901234; VStr "98765432100011";
                     VDict [("siret", VStr "00012345678901")]])].

(** An article whose company reference has a null [label]. *)
Definition null_label_row : pydict :=
  [("title", VStr "Fusion");
   ("companies",
    VList [VDict [("label", VNone); ("siren", VStr "123456789");
                  ("siret", VStr "12345678901234")]])].

(** A company record whose 2022 metrics have a null entry named [siren]. *)
Definition kpi_clash : pydict :=
  [("socialName", VStr "Acme"); ("siren", VStr "123456789");
   ("siret", VInt 12345678901234);
   ("kpi", VDict [("2022", VDict [("ca", VInt 10); ("siren", VNone)])])].

(** A signal whose only SIRET entry is itself a list. *)
Definition nested_siret_row : pydict :=
  [("sirets", VList [VList [VInt 1; VInt 2]])].

(** A record whose top-level [kpi] is an empty mapping while its flattened
    [computed.kpi] holds a year of metrics. *)
Definition kpi_shadowed : pydict :=
  [("socialName", VStr "Acme"); ("siren", VStr "123456789");
   ("siret", VInt 12345678901234);
   ("kpi", VDict []);
   ("computed.kpi", VDict [("2022", VDict [("ca", VInt 10)])])].

(** The same empty mapping, this time inside the [computed] container, with
    the year of metrics under the flattened [v1legacy.kpi]. *)
Definition kpi_nested : pydict :=
  [("socialName", VStr "Acme"); ("siren", VStr "123456789");
   ("siret", VInt 12345678901234);
   ("computed", VDict [("kpi", VDict [])]);
   ("v1legacy.kpi", VDict [("2022", VDict [("ca", VInt 10)])])].

(** A chunk of three records: the second has an empty [socialName], the
    third has none; both have a [label]. *)
Definition names_chunk : frame :=
  DataFrame
    [[("socialName", VStr "Acme"); ("label", VStr "Acme SA"); ("siren", VStr "1")];
     [("socialName", VStr ""); ("label", VStr "Bolt"); ("siren", VStr "2")];
     [("label", VStr "Cargo"); ("siren", VStr "3")]].

(** A chunk whose [socialName] column is null throughout. *)
Definition unnamed_chunk : frame :=
  DataFrame
    [[("socialName", VNone); ("name", VStr "Bolt"); ("siren", VStr "2")];
     [("socialName", VNone); ("siren", VStr "3")]].

End Examples.

(** ** The six flat company tables (lines 462-611)

    Each table is [base_index.copy()] with a block of columns set beside it
    ([pd.concat(axis=1)]).  A column of a block is made in one of five
    ways; the blocks below list, for each table, the output column and the
    way the source makes it.  The chunk has the default row index, as a
    [frame] has; [Company.extract_chunk] keeps of these tables the identity
    columns, and the source computes the blocks between [base_index] and
    the KPI rows. *)

Module Tables.

Inductive field : Type :=
| Text (src : string)          (* safe_get(df, src, "").fillna("") *)
| Flag (src : string)          (* safe_get(df, src, False).astype(bool) *)
| Count (src : string)         (* safe_get(df, src, 0).fillna(0) *)
| Nested (src key : string)    (* safe_get(df, src, {}).apply(lambda x: x.get(key, "") if isinstance(x, dict) else "") *)
| Blend (first second : string). (* text(first) + " " + text(second) *)

Definition text (df : frame) (src : string) : list pyval :=
  Company.fillna (Company.safe_get df src (VStr "")).

(** [.astype(bool)]: [bool(x)] cell by cell; NaN is true, None is false. *)
Definition flag (df : frame) (src : string) : list pyval :=
  map (fun v => VBool (truthy v)) (Company.safe_get df src (VBool false)).

(** [.fillna(0)].  A column all of whose cells are floats, NaN among them,
    is a float64 column, as pandas infers it for a column of numbers and
    nulls, and the 0 is stored there as the float 0.0; in any other column
    (object, or the int column the default makes) it is the int 0. *)
Definition is_float (v : pyval) : bool :=
  match v with VFloat _ => true | _ => false end.

Definition count (df : frame) (src : string) : list pyval :=
  let series := Company.safe_get df src (VInt 0) in
  let zero := if forallb is_float series then VFloat (FFin false 0 0) else VInt 0 in
  map (fun v => if checknull v then zero else v) series.

Definition nested (df : frame) (src key : string) : list pyval :=
  map (fun x => match x with
                | VDict d => dict_get d key (VStr "")
                | _ => VStr ""
                end)
      (Company.safe_get df src (VDict [])).

(** [a + b] where one operand is known to be a string: TypeError unless
    both are. *)
Definition add_str (a b : pyval) : result pyval :=
  match a, b with
  | VStr x, VStr y => Ok (VStr (x ++ y))
  | _, _ => Raise TypeError
  end.

Fixpoint add_series (a b : list pyval) : result (list pyval) :=
  match a, b with
  | x :: a', y :: b' => z <- add_str x y ;; zs <- add_series a' b' ;; Ok (z :: zs)
  | _, _ => Ok []
  end.

Definition blend (df : frame) (first second : string) : result (list pyval) :=
  spaced <- mapM (fun x => add_str x (VStr " ")) (text df first) ;;
  add_series spaced (text df second).

Definition column (df : frame) (f : field) : result (list pyval) :=
  match f with
  | Text src => Ok (text df src)
  | Flag src => Ok (flag df src)
  | Count src => Ok (count df src)
  | Nested src key => Ok (nested df src key)
  | Blend first second => blend df first second
  end.

Definition block : Type := list (string * field).

Definition basic_info : block :=
  [("departement", Nested "department" "label");
   ("departement_id", Nested "department" "id");
   ("resume_activite", Blend "activity" "activityLight");
   ("raison_sociale", Text "socialName");
   ("raison_sociale_keyword", Text "internalName");
   ("last_modified", Text "updatedAt");
   ("processedAt", Text "createdAt");
   ("updatedAt", Text "updatedAt");
   ("address", Text "address");
   ("cp", Text "cp");
   ("ville", Text "ville");
   ("naf_code", Nested "naf" "code");
   ("naf_label", Nested "naf" "label");
   ("juridic_form", Nested "juridicForm" "label")].

Definition financial : block :=
  [("caConsolide", Text "caConsolide");
   ("caGroupe", Text "caGroupe");
   ("caBilan", Text "caBilan");
   ("resultatExploitation", Text "resultatExploitation");
   ("resultatNet", Text "resultatNet");
   ("fondsPropres", Text "fondsPropres");
   ("dateConsolide", Text "dateCloture");
   ("trancheCaBilan", Text "trancheCaBilan");
   ("trancheCaConsolide", Text "trancheCaConsolide")].

Definition workforce : block :=
  [("effectif", Text "effectif");
   ("effectifConsolide", Text "effectifConsolide");
   ("effectifGroupe", Text "effectifGroupe");
   ("trancheEffectifConsolide", Text "trancheEffectifConsolide");
   ("trancheEffectifPrecis", Text "trancheEffectifPrecis")].

Definition structure : block :=
  [("nbEtabSecondaire", Text "nbEtabSecondaire");
   ("nbMarques", Text "nbMarques");
   ("hasGroupOwner", Flag "hasGroupOwner");
   ("groupOwnerSiren", Text "groupOwnerSiren");
   ("groupOwnerSocialName", Text "groupOwnerSocialName");
   ("hasEtabSecondaire", Flag "hasEtabSecondaire");
   ("nbActionnaires", Text "nbActionnaires")].

Definition flags : block :=
  [("startup", Flag "startup");
   ("radiee", Flag "radiate");
   ("entreprise_b2b", Flag "bToB");
   ("entreprise_b2c", Flag "bToC");
   ("fintech", Flag "entreprise_fintech");
   ("cac40", Flag "cac40");
   ("entreprise_familiale", Flag "entreprise_familiale");
   ("entreprise_biotech_medtech", Flag "entreprise_biotech_medtech");
   ("hasMarques", Flag "hasMarques");
   ("hasESV1Contacts", Flag "hasESV1Contacts");
   ("hasBrevets", Flag "hasBrevets");
   ("hasBodacc", Flag "hasBodacc");
   ("site_ecommerce", Flag "site_ecommerce");
   ("risk", Flag "risk")].

Definition contacts : block :=
  [("nbContacts", Count "nbContacts");
   ("emailContact", Text "emailContact");
   ("telephoneNumber", Text "telephoneNumber");
   ("webSite", Text "webSite");
   ("urlLinkedin", Text "urlLinkedin");
   ("urlFacebook", Text "urlFacebook");
   ("urlTwitter", Text "urlTwitter")].





(** The six tables of one chunk, in the order the source appends them. *)
Definition names : list string :=
  ["01_company_basic_info"; "02_financial_data"; "03_workforce_data";
   "04_company_structure"; "05_classification_flags"; "06_contact_metrics"].

Definition blocks : list block :=
  [basic_info; financial; workforce; structure; flags; contacts].



Definition sources (f : field) : list string :=
  match f with
  | Text s | Flag s | Count s | Nested s _ => [s]
  | Blend first second => [first; second]
  end.

End Tables.

(** ** [DatasetCatalog.transform] (extract_pipeline.py, lines 71-82) *)

Module Catalog.

Definition index_cols : list string := ["company_name"; "siren"; "siret"].

Definition mem (c : string) (l : list string) : bool := existsb (String.eqb c) l.

(** [sorted(cols)]: ascending by code point. *)
Fixpoint insert (c : string) (l : list string) : list string :=
  match l with
  | [] => [c]
  | d :: l' => if String.leb c d then c :: l else d :: insert c l'
  end.

Fixpoint sorted (l : list string) : list string :=
  match l with
  | [] => []
  | c :: l' => insert c (sorted l')
  end.

(** [df.empty]: no row or no column. *)
Definition df_empty (df : frame) : bool :=
  match columns df, rows df with
  | [], _ | _, [] => true
  | _, _ => false
  end.

(** [df[cols]] for labels of a frame whose labels are distinct;
    [reset_index(drop=True)] changes nothing a row list shows. *)
Definition select (df : frame) (cols : list string) : frame :=
  {| columns := cols;
     rows := map (fun r => map (fun c => (c, row_get r c)) cols) (rows df) |}.

Definition sorted_cols (df : frame) : list string :=
  let other_cols := filter (fun c => negb (mem c index_cols)) (columns df) in
  (filter (fun c => mem c (columns df)) index_cols ++ sorted other_cols)%list.

Definition tidy (df : frame) : frame :=
  if df_empty df then df else select df (sorted_cols df).

Definition transform (datasets : list (string * frame)) : list (string * frame) :=
  map (fun nd => (fst nd, tidy (snd nd))) datasets.

End Catalog.

(** ** Statements about rows and frames *)

(** The columns of an article row and of a signal row. *)
Definition article_columns : list string :=
  ["company_name"; "siren"; "siret"; "title"; "publishedAt"; "author";
   "signalsStatus"; "signalsType"; "country"; "sectors"; "cities"; "sources";
   "departments"; "all_companies_count"; "companies_count"].

Definition signal_columns : list string :=
  ["company_name"; "siren"; "siret"; "continent"; "country"; "departement";
   "publishedAt"; "isMain"; "type"; "type_id"; "createdAt"; "statut";
   "city_label"; "city_zip_code"; "natureOp"; "companies_count"; "sirets_count"].

Definition keys (row : pydict) : list string := map fst row.






(** What [len(safe_get_list(cell, []))] comes to in [_create_article_row]
    for a list cell of references: 1 for a single non-null reference, 0
    for every other list. *)
Definition counted (l : list pyval) : Z :=
  match l with
  | [x] => if checknull x then 0 else 1
  | _ => 0
  end.

(** Metrics of a year that name neither [year] nor an identity column. *)
Definition no_key (k : string) (m : pydict) : bool :=
  negb (existsb (String.eqb k) (map fst m)).

Definition plain_metrics (v : pyval) : bool :=
  match v with
  | VDict m =>
      no_key "year" m && no_key "company_name" m && no_key "siren" m &&
      no_key "siret" m
  | _ => true
  end.

(** Ascending order of labels. *)
Definition leb_rel (a b : string) : Prop := String.leb a b = true.

Definition is_identity_col (c : string) : bool :=
  Catalog.mem c Catalog.index_cols.

(** Inputs the worked instances run on. *)
Module Samples.

Definition acme_ref : pyval := VDict [("label", VStr "Acme")].
Definition bolt_ref : pyval := VDict [("label", VStr "Bolt")].

(** An article whose [companies] lists two references and whose
    [all_companies] lists one. *)
Definition counted_row : pydict :=
  [("companies", VList [acme_ref; bolt_ref]); ("all_companies", VList [acme_ref])].

(** An article whose one company reference carries a list for [siret]. *)
Definition listed_siret_article : pydict :=
  [("title", VStr "Fusion");
   ("companies",
    VList [VDict [("label", VStr "Acme"); ("siren", VStr "123456789");
                  ("siret", VList [VInt 1; VInt 2])]])].

(** A signal with one company reference, whose one SIRET entry is a
    list. *)
Definition listed_siret_signal : pydict :=
  [("companies", VList [VDict [("id", VStr "123456789")]]);
   ("sirets", VList [VList [VInt 1; VInt 2]])].

(** A table of one row whose columns are out of order. *)
Definition city_frame : frame :=
  DataFrame [[("ville", VStr "Lyon"); ("siret", VStr "12345678901234");
              ("cp", VStr "69000"); ("company_name", VStr "Acme")]].


(** Two records, of which only the first has the key [startup]. *)
Definition startup_records : list pydict :=
  [[("socialName", VStr "Acme"); ("startup", VBool false)];
   [("socialName", VStr "Bolt")]].


End Samples.

(** * Properties *)

(** ** Decimal numerals *)

Lemma digit_char_ok (d : Z) :
  0 <= d <= 9 -> is_digit (digit_char d) = true /\ digit_val (digit_char d) = d.
Proof.
  intros H.
  assert (E : d = 0 \/ d = 1 \/ d = 2 \/ d = 3 \/ d = 4 \/ d = 5 \/ d = 6 \/
              d = 7 \/ d = 8 \/ d = 9) by lia.
  repeat (destruct E as [E | E]; [subst d; split; reflexivity |]).
  subst d; split; reflexivity.
Qed.

Lemma is_digit_val (c : ascii) :
  is_digit c = true -> 0 <= digit_val c <= 9 /\ digit_char (digit_val c) = c.
Proof.
  destruct c as [[] [] [] [] [] [] [] []]; intros H; try discriminate H;
    split; try reflexivity; unfold digit_val; simpl; lia.
Qed.

Lemma append_empty_r (s : string) : s ++ "" = s.
Proof. induction s as [| c s IH]; simpl; [reflexivity | now rewrite IH]. Qed.

Lemma digits_fixed_length (w : nat) :
  forall n acc, String.length (digits_fixed w n acc) = (w + String.length acc)%nat.
Proof.
  induction w as [| w IH]; intros n acc; cbn [digits_fixed]; [reflexivity |].
  rewrite IH. cbn [String.length]. lia.
Qed.

Lemma digits_fixed_all_digits (w : nat) :
  forall n acc, all_digits (digits_fixed w n acc) = all_digits acc.
Proof.
  induction w as [| w IH]; intros n acc; cbn [digits_fixed]; [reflexivity |].
  rewrite IH. cbn [all_digits].
  destruct (digit_char_ok (n mod 10)) as [-> _]; [| reflexivity].
  pose proof (Z.mod_pos_bound n 10). lia.
Qed.

Lemma digits_fixed_value (w : nat) :
  forall n a acc,
    digits_value a (digits_fixed w n acc) =
    digits_value (a * 10 ^ Z.of_nat w + n mod 10 ^ Z.of_nat w) acc.
Proof.
  induction w as [| w IH]; intros n a acc.
  - cbn [digits_fixed Z.of_nat]. rewrite Z.pow_0_r, Z.mod_1_r. f_equal. lia.
  - cbn [digits_fixed]. rewrite IH. cbn [digits_value].
    destruct (digit_char_ok (n mod 10)) as [_ ->];
      [pose proof (Z.mod_pos_bound n 10); lia |].
    f_equal. rewrite Nat2Z.inj_succ, Z.pow_succ_r by lia.
    rewrite (Z.rem_mul_r n 10 (10 ^ Z.of_nat w)) by lia. lia.
Qed.

(** One more digit in front is the next decimal digit of [n]. *)
Lemma digits_fixed_succ (w : nat) :
  forall n acc,
    digits_fixed (S w) n acc =
    String (digit_char ((n / 10 ^ Z.of_nat w) mod 10)) (digits_fixed w n acc).
Proof.
  induction w as [| w IH]; intros n acc.
  - cbn [digits_fixed Z.of_nat]. now rewrite Z.pow_0_r, Z.div_1_r.
  - change (digits_fixed (S (S w)) n acc)
      with (digits_fixed (S w) (n / 10) (String (digit_char (n mod 10)) acc)).
    rewrite IH. cbn [digits_fixed]. do 2 f_equal.
    rewrite Nat2Z.inj_succ, Z.pow_succ_r by lia.
    rewrite Z.div_div by lia. reflexivity.
Qed.

Lemma digits_value_split (s : string) :
  all_digits s = true ->
  forall a,
    digits_value a s = a * 10 ^ Z.of_nat (String.length s) + digits_value 0 s /\
    0 <= digits_value 0 s < 10 ^ Z.of_nat (String.length s).
Proof.
  induction s as [| c s IH]; intros Hd a.
  - cbn [digits_value String.length Z.of_nat]. rewrite Z.pow_0_r. lia.
  - cbn [all_digits] in Hd. apply andb_prop in Hd as [Hc Hs].
    destruct (is_digit_val c Hc) as [Hr _].
    cbn [digits_value String.length].
    destruct (IH Hs (10 * a + digit_val c)) as [E1 B].
    destruct (IH Hs (10 * 0 + digit_val c)) as [E2 _].
    rewrite E1, E2, Nat2Z.inj_succ, Z.pow_succ_r by lia.
    split; nia.
Qed.

(** Printing the value of a digit string at its own width gives it back. *)
Lemma digits_fixed_of_value (s : string) :
  all_digits s = true ->
  forall a acc,
    digits_fixed (String.length s) (digits_value a s) acc = s ++ acc.
Proof.
  induction s as [| c s IH]; intros Hd a acc; [reflexivity |].
  cbn [all_digits] in Hd. apply andb_prop in Hd as [Hc Hs].
  cbn [String.length digits_value].
  rewrite digits_fixed_succ, IH by assumption.
  destruct (digits_value_split s Hs (10 * a + digit_val c)) as [E B].
  destruct (is_digit_val c Hc) as [Hr Hch].
  rewrite E.
  replace (((10 * a + digit_val c) * 10 ^ Z.of_nat (String.length s)
            + digits_value 0 s) / 10 ^ Z.of_nat (String.length s))
    with (10 * a + digit_val c).
  - replace ((10 * a + digit_val c) mod 10) with (digit_val c).
    + now rewrite Hch.
    + symmetry. rewrite Z.add_comm, Z.mul_comm, Z.mod_add by lia.
      apply Z.mod_small. lia.
  - symmetry. rewrite Z.div_add_l by lia.
    rewrite (Z.div_small (digits_value 0 s)) by lia. lia.
Qed.

Lemma ndigits_fuel_bound (f : nat) :
  forall n k, 0 <= n < 10 ^ Z.of_nat (S k) -> (ndigits_fuel f n <= S k)%nat.
Proof.
  induction f as [| f IH]; intros n k H; cbn [ndigits_fuel]; [lia |].
  destruct (n <? 10) eqn:E; [lia |].
  apply Z.ltb_ge in E.
  destruct k as [| k]; [change (10 ^ Z.of_nat 1) with 10 in H; lia |].
  apply le_n_S, IH.
  rewrite Nat2Z.inj_succ, Z.pow_succ_r in H by lia.
  split; [apply Z.div_pos; lia |].
  apply Z.div_lt_upper_bound; lia.
Qed.

Lemma format_014d_small (n : Z) :
  0 <= n < 10 ^ 14 -> format_014d n = digits_fixed 14 n "".
Proof.
  intros H. unfold format_014d.
  destruct (n <? 0) eqn:E; [apply Z.ltb_lt in E; lia |].
  replace (Nat.max 14 (ndigits n)) with 14%nat; [reflexivity |].
  pose proof (ndigits_fuel_bound (Z.to_nat (Z.log2 n)) n 13 H) as B.
  unfold ndigits. lia.
Qed.

(** ** [float] and [int] on decimal numerals *)

Lemma digit_not_special (c : ascii) :
  is_digit c = true ->
  Ascii.eqb c "_" = false /\ lower c = c /\
  Ascii.eqb c "i" = false /\ Ascii.eqb c "n" = false /\
  forall s, split_sign (String c s) = (false, String c s).
Proof.
  destruct c as [[] [] [] [] [] [] [] []]; intros H; try discriminate H;
    repeat split; reflexivity.
Qed.

Lemma drop_underscores_digits (s : string) :
  all_digits s = true ->
  forall prev, Ascii.eqb prev "_" = false -> drop_underscores prev s = Some s.
Proof.
  induction s as [| c s IH]; intros Hd prev Hp; cbn [drop_underscores].
  - now rewrite Hp.
  - cbn [all_digits] in Hd. apply andb_prop in Hd as [Hc Hs].
    destruct (digit_not_special c Hc) as (Hu & _).
    rewrite Hu, Hp, (IH Hs c Hu). reflexivity.
Qed.

Lemma span_digits_all (s : string) :
  all_digits s = true -> span_digits s = (s, "").
Proof.
  induction s as [| c s IH]; intros Hd; cbn [span_digits]; [reflexivity |].
  cbn [all_digits] in Hd. apply andb_prop in Hd as [Hc Hs].
  now rewrite Hc, (IH Hs).
Qed.

(** A non-empty digit string parses to the float nearest to its value. *)
Lemma float_of_digit_string (c : ascii) (s : string) :
  all_digits (String c s) = true ->
  float_of_string (String c s) =
  Some (round64 false (digits_value 0 (String c s)) 1).
Proof.
  intros Hd. unfold float_of_string.
  rewrite (drop_underscores_digits _ Hd) by reflexivity.
  pose proof Hd as Hd'. cbn [all_digits] in Hd'.
  apply andb_prop in Hd' as [Hc Hs].
  destruct (digit_not_special c Hc) as (_ & Hl & Hi & Hn & Hsg).
  rewrite Hsg. cbn [lower_str]. rewrite Hl.
  assert (E1 : forall t u, String.eqb (String c t) (String "i" u) = false).
  { intros t u. cbn [String.eqb]. now rewrite Hi. }
  assert (E2 : forall t u, String.eqb (String c t) (String "n" u) = false).
  { intros t u. cbn [String.eqb]. now rewrite Hn. }
  change "inf" with (String "i" "nf"). change "infinity" with (String "i" "nfinity").
  change "nan" with (String "n" "an").
  rewrite !E1, E2. cbn [orb].
  unfold parse_number. rewrite (span_digits_all _ Hd).
  cbn [String.length Nat.add Nat.eqb parse_exponent].
  rewrite append_empty_r.
  unfold decimal_to_float.
  change (0 - Z.of_nat 0) with 0. change (0 <=? 0) with true. cbv iota.
  now rewrite Z.pow_0_r, Z.mul_1_r.
Qed.

(** Integers below [2^53] are floats: rounding and truncating give them back. *)
Lemma int_of_round64_exact (n : Z) :
  0 <= n < 2 ^ 53 -> int_of_float (round64 false n 1) = Ok n.
Proof.
  intros H. unfold round64.
  destruct (n =? 0) eqn:E0.
  - apply Z.eqb_eq in E0. subst n. reflexivity.
  - apply Z.eqb_neq in E0.
    assert (Hn : 0 < n) by lia.
    change (Z.log2 1) with 0. rewrite Z.sub_0_r.
    pose proof (Z.log2_spec n Hn) as [L1 L2].
    pose proof (Z.log2_nonneg n) as L0.
    assert (L3 : Z.log2 n < 53) by (apply Z.log2_lt_pow2; lia).
    set (k := Z.log2 n) in *.
    replace (0 <=? k) with true by (symmetry; apply Z.leb_le; lia).
    replace (1 * 2 ^ k <=? n) with true by (symmetry; apply Z.leb_le; lia).
    replace (Z.max (k - 52) (-1074)) with (k - 52) by lia.
    destruct (0 <=? k - 52) eqn:Ee.
    + apply Z.leb_le in Ee. replace (k - 52) with 0 by lia.
      change (1 * 2 ^ 0) with 1.
      rewrite Z.div_1_r, Z.mod_1_r.
      change (1 <? 2 * 0) with false. change (1 =? 2 * 0) with false.
      cbn [orb andb]. change (971 <? 0) with false. change (0 =? 971) with false.
      cbn [orb andb int_of_float]. change (0 <=? 0) with true. cbv iota.
      f_equal. lia.
    + apply Z.leb_gt in Ee.
      rewrite Z.div_1_r, Z.mod_1_r.
      change (1 <? 2 * 0) with false. change (1 =? 2 * 0) with false.
      cbn [orb andb].
      replace (971 <? k - 52) with false by (symmetry; apply Z.ltb_ge; lia).
      replace (k - 52 =? 971) with false by (symmetry; apply Z.eqb_neq; lia).
      cbn [orb andb int_of_float].
      replace (0 <=? k - 52) with false by (symmetry; apply Z.leb_gt; lia).
      f_equal. apply Z.div_mul.
      apply Z.pow_nonzero; lia.
Qed.

(** ** [format_siret] on its intended inputs *)

Lemma digit_not_space (c : ascii) : is_digit c = true -> is_space c = false.
Proof.
  destruct c as [[] [] [] [] [] [] [] []]; intros H; try discriminate H; reflexivity.
Qed.

Lemma rstrip_digits (s : string) : all_digits s = true -> rstrip s = s.
Proof.
  induction s as [| c s IH]; intros Hd; [reflexivity |].
  cbn [all_digits] in Hd. apply andb_prop in Hd as [Hc Hs].
  cbn [rstrip]. rewrite (IH Hs), (digit_not_space c Hc).
  now destruct s.
Qed.

Lemma strip_digits (s : string) : all_digits s = true -> strip s = s.
Proof.
  intros Hd. unfold strip.
  replace (lstrip s) with s; [now apply rstrip_digits |].
  destruct s as [| c s]; [reflexivity |].
  cbn [all_digits] in Hd. apply andb_prop in Hd as [Hc _].
  cbn [lstrip]. now rewrite (digit_not_space c Hc).
Qed.

Lemma format_siret_int (rt : runtime) (n : Z) :
  format_siret rt (VInt n) = Ok (format_014d n).
Proof. reflexivity. Qed.

Lemma format_siret_digit_string (rt : runtime) (c : ascii) (s : string) :
  all_digits (String c s) = true ->
  digits_value 0 (String c s) < 2 ^ 53 ->
  format_siret rt (VStr (String c s)) =
  Ok (format_014d (digits_value 0 (String c s))).
Proof.
  intros Hd Hb.
  pose proof Hd as Hd'. cbn [all_digits] in Hd'.
  apply andb_prop in Hd' as [Hc _].
  destruct (digit_not_special c Hc) as (_ & _ & _ & Hn & _).
  destruct (digits_value_split _ Hd 0) as [_ [Hv _]].
  unfold format_siret.
  cbn [pd_isna checknull mask_bool bind eq_str orb py_str].
  change (String.eqb (String c s) "") with false.
  replace (String.eqb (String c s) "nan") with false
    by (cbn [String.eqb]; now rewrite Hn).
  cbn [orb]. rewrite (strip_digits _ Hd).
  change (String.eqb (String c s) "") with false.
  replace (String.eqb (String c s) "nan") with false
    by (cbn [String.eqb]; now rewrite Hn).
  cbn [negb andb]. unfold py_float_str.
  rewrite (float_of_digit_string c s Hd). cbn [bind].
  rewrite int_of_round64_exact by lia.
  reflexivity.
Qed.

(** C4.  [format_siret] on an integer [n] with [0 <= n < 10^14] (as an [int],
    or as the float of that value) returns the 14-character digit string
    whose decimal value is [n]; on the empty string, [None], NaN and the
    string "nan" it returns the empty string; on a string that already is
    14 decimal digits it returns that string. *)
Theorem format_siret_normalization (rt : runtime) (n : Z) (s : string) :
  0 <= n < 10 ^ 14 ->
  is_siret14 s = true ->
  (exists p,
      format_siret rt (VInt n) = Ok p /\
      format_siret rt (VFloat (FFin false n 0)) = Ok p /\
      is_siret14 p = true /\ digits_value 0 p = n) /\
  format_siret rt (VStr "") = Ok "" /\
  format_siret rt VNone = Ok "" /\
  format_siret rt NaN = Ok "" /\
  format_siret rt (VStr "nan") = Ok "" /\
  format_siret rt (VStr s) = Ok s.
Proof.
  intros Hn Hs.
  split; [| repeat (split; [reflexivity |])].
  - exists (digits_fixed 14 n "").
    rewrite format_siret_int, format_014d_small by assumption.
    repeat split.
    + unfold format_siret.
      cbn [pd_isna checknull mask_bool bind eq_str orb catch int_of_float].
      change (0 <=? 0) with true. cbv iota.
      rewrite Z.pow_0_r, Z.mul_1_r. cbn [bind catch].
      now rewrite format_014d_small.
    + unfold is_siret14.
      rewrite digits_fixed_length, digits_fixed_all_digits. reflexivity.
    + rewrite digits_fixed_value. cbn [digits_value].
      change (Z.of_nat 14) with 14. rewrite Z.mod_small by assumption. lia.
  - unfold is_siret14 in Hs. apply andb_prop in Hs as [Hl Hd].
    apply Nat.eqb_eq in Hl.
    destruct s as [| c s]; [discriminate Hl |].
    destruct (digits_value_split _ Hd 0) as [_ Hv].
    rewrite Hl in Hv. change (Z.of_nat 14) with 14 in Hv.
    assert (B : 10 ^ 14 < 2 ^ 53) by reflexivity.
    rewrite format_siret_digit_string by (assumption || lia).
    rewrite format_014d_small by assumption.
    f_equal. rewrite <- Hl.
    rewrite digits_fixed_of_value by assumption.
    apply append_empty_r.
Qed.

Lemma format_siret_normalization_witness :
  (0 <= 42 < 10 ^ 14) /\ is_siret14 "00012345678901" = true /\
  format_siret rt_strict (VStr "00012345678901") = Ok "00012345678901".
Proof.
  split; [lia |]. split; [reflexivity |].
  apply (format_siret_normalization rt_strict 42 "00012345678901");
    [lia | reflexivity].
Defined.

(** ** Dictionaries and rows *)

Lemma dict_find_set (d : pydict) (k k' : string) (v : pyval) :
  dict_find (dict_set d k v) k' =
  if String.eqb k' k then Some v else dict_find d k'.
Proof.
  induction d as [| [k0 v0] d IH]; cbn [dict_set dict_find].
  - reflexivity.
  - destruct (String.eqb k k0) eqn:E; cbn [dict_find].
    + apply String.eqb_eq in E. subst k0.
      destruct (String.eqb k' k); reflexivity.
    + rewrite IH. destruct (String.eqb k' k0) eqn:E'; [| reflexivity].
      apply String.eqb_eq in E'. subst k0.
      now rewrite String.eqb_sym, E.
Qed.

Lemma dict_find_update (u d : pydict) (k : string) :
  existsb (String.eqb k) (map fst u) = false ->
  dict_find (dict_update d u) k = dict_find d k.
Proof.
  unfold dict_update. revert d.
  induction u as [| [k0 v0] u IH]; intros d H; cbn [fold_left]; [reflexivity |].
  cbn [map fst existsb] in H. apply orb_false_elim in H as [H0 H].
  rewrite (IH _ H). cbn [fst snd]. now rewrite dict_find_set, H0.
Qed.

Lemma identity_update (u d : pydict) :
  existsb (String.eqb "company_name") (map fst u) = false ->
  existsb (String.eqb "siren") (map fst u) = false ->
  existsb (String.eqb "siret") (map fst u) = false ->
  identity (dict_update d u) = identity d.
Proof.
  intros H1 H2 H3. unfold identity, dict_get.
  now rewrite !dict_find_update by assumption.
Qed.

Lemma article_row_identity (rt : runtime) (row base_index : pydict) :
  identity (Article.create_article_row rt row base_index) = identity base_index.
Proof. unfold Article.create_article_row. apply identity_update; reflexivity. Qed.

Lemma signal_row_identity (rt : runtime) (row base_index : pydict) :
  identity (Signal.create_signal_row rt row base_index) = identity base_index.
Proof. unfold Signal.create_signal_row. apply identity_update; reflexivity. Qed.

(** ** Results *)

Lemma mapM_ok {A B : Type} (f : A -> result B) (l : list A) :
  Forall (fun a => exists b, f a = Ok b) l ->
  exists bs, mapM f l = Ok bs /\ Forall2 (fun a b => f a = Ok b) l bs.
Proof.
  induction 1 as [| a l [b Hb] _ (bs & E & F)]; cbn [mapM].
  - exists []. split; [reflexivity | constructor].
  - exists (b :: bs). rewrite Hb, E. split; [reflexivity |].
    constructor; assumption.
Qed.

Lemma mapM_map {A B : Type} (f : A -> B) (l : list A) :
  mapM (fun a => Ok (f a)) l = Ok (map f l).
Proof.
  induction l as [| a l IH]; cbn [mapM map bind]; [reflexivity |].
  now rewrite IH.
Qed.

Lemma Forall2_map_self {A B : Type} (R : A -> B -> Prop) (f : A -> B) (l : list A) :
  (forall a, R a (f a)) -> Forall2 R l (map f l).
Proof. intros H. induction l; cbn [map]; constructor; auto. Qed.

(** ** [format_siret] returns on every input that is not a list *)

Lemma mask_bool_scalar (rt : runtime) (v : pyval) :
  is_list v = false -> mask_bool rt (pd_isna v) = Ok (checknull v).
Proof. destruct v; intros H; try discriminate H; reflexivity. Qed.

Lemma catch_ok {A : Type} (r : result A) (a : A) : exists b, catch r (Ok a) = Ok b.
Proof. destruct r as [b | e]; [exists b | exists a]; reflexivity. Qed.

Lemma format_siret_after_guard (rt : runtime) (v : pyval) (na : bool) :
  mask_bool rt (pd_isna v) = Ok na -> exists s, format_siret rt v = Ok s.
Proof.
  intros E. unfold format_siret. rewrite E. cbn [bind].
  destruct (na || eq_str v "" || eq_str v "nan"); [now exists "" |].
  apply catch_ok.
Qed.

Lemma format_siret_returns (rt : runtime) (v : pyval) :
  is_list v = false -> exists s, format_siret rt v = Ok s.
Proof.
  intros H. apply (format_siret_after_guard rt v (checknull v)).
  now apply mask_bool_scalar.
Qed.

(** ** The size of the array [pd.isna] builds from a list *)

Lemma prefix_trans (p q l : list nat) : prefix p q -> prefix q l -> prefix p l.
Proof.
  intros [t ->] [u ->]. exists (t ++ u)%list. now rewrite app_assoc.
Qed.

Lemma common_prefix_both (a : list nat) :
  forall b, prefix (common_prefix a b) a /\ prefix (common_prefix a b) b.
Proof.
  induction a as [| x a IH]; intros b; cbn [common_prefix].
  - split; [exists [] | exists b]; reflexivity.
  - destruct b as [| y b]; [split; [eexists | eexists]; reflexivity |].
    destruct (Nat.eqb x y) eqn:E.
    + apply Nat.eqb_eq in E. subst y.
      destruct (IH b) as [[t Ht] [u Hu]].
      split; [exists t | exists u]; cbn [app]; congruence.
    + split; eexists; reflexivity.
Qed.

Lemma fold_common_prefix (ss : list (list nat)) :
  forall s,
    prefix (fold_left common_prefix ss s) s /\
    Forall (prefix (fold_left common_prefix ss s)) ss.
Proof.
  induction ss as [| x ss IH]; intros s; cbn [fold_left].
  - split; [exists []; now rewrite app_nil_r | constructor].
  - destruct (IH (common_prefix s x)) as [P F].
    destruct (common_prefix_both s x) as [Ps Px].
    split; [eapply prefix_trans; eassumption |].
    constructor; [eapply prefix_trans; eassumption | assumption].
Qed.

(** Below a list, the shape is a prefix of the shape of every element. *)
Lemma np_shape_elements (l : list pyval) (n : nat) (p : list nat) :
  prefix (n :: p) (np_shape (VList l)) ->
  n = List.length l /\ Forall (fun x => prefix p (np_shape x)) l.
Proof.
  cbn [np_shape]. intros [t E]. cbn [app] in E.
  injection E as En Ep. split; [congruence |].
  destruct l as [| x l]; [constructor |].
  cbn [map] in Ep.
  destruct (fold_common_prefix (map np_shape l) (np_shape x)) as [P F].
  rewrite Ep in P, F.
  assert (Q : prefix p (p ++ t)%list) by (exists t; reflexivity).
  constructor; [eapply prefix_trans; eassumption |].
  rewrite Forall_map in F.
  eapply Forall_impl; [| exact F].
  intros a Ha. eapply prefix_trans; eassumption.
Qed.

Lemma flat_map_length_const {A B : Type} (f : A -> list B) (c : nat) (l : list A) :
  Forall (fun a => List.length (f a) = c) l ->
  List.length (flat_map f l) = (List.length l * c)%nat.
Proof.
  induction 1 as [| a l Ha _ IH]; cbn [flat_map List.length]; [reflexivity |].
  rewrite length_app, Ha, IH. lia.
Qed.

Lemma np_flat_length (d : nat) :
  forall x p,
    prefix p (np_shape x) -> List.length p = d ->
    List.length (np_flat d x) = fold_right Nat.mul 1%nat p.
Proof.
  induction d as [| d IH]; intros x p P L.
  - destruct p; [| discriminate L]. reflexivity.
  - destruct p as [| n p]; [discriminate L |].
    injection L as L.
    destruct x as [| | | | | l |];
      try (destruct P as [t E]; discriminate E).
    destruct (np_shape_elements l n p P) as [-> F].
    cbn [np_flat fold_right].
    apply flat_map_length_const.
    eapply Forall_impl; [| exact F].
    intros a Ha. now apply IH.
Qed.

(** The array of a list of [n] elements has a multiple of [n] elements. *)
Lemma np_size (l : list pyval) :
  exists c,
    List.length (np_flat (List.length (np_shape (VList l))) (VList l)) =
    (List.length l * c)%nat.
Proof.
  assert (P : prefix (np_shape (VList l)) (np_shape (VList l)))
    by (exists []; now rewrite app_nil_r).
  rewrite (np_flat_length _ _ _ P eq_refl).
  cbn [np_shape fold_right]. eexists. reflexivity.
Qed.

(** A list of two or more elements is never judged null as a whole. *)
Lemma mask_bool_long (rt : runtime) (l : list pyval) :
  (2 <= List.length l)%nat ->
  mask_bool rt (pd_isna (VList l)) <> Ok true.
Proof.
  intros H. unfold pd_isna.
  destruct (np_size l) as [c E].
  remember (np_flat _ (VList l)) as fl eqn:Hfl. clear Hfl.
  destruct fl as [| a [| b fl]]; cbn [map mask_bool].
  - destruct (numpy rt); discriminate.
  - cbn [List.length] in E. exfalso.
    destruct c as [| c]; [lia | rewrite Nat.mul_succ_r in E; lia].
  - discriminate.
Qed.

Lemma safe_get_list_long (rt : runtime) (l : list pyval) :
  (2 <= List.length l)%nat -> safe_get_list rt (VList l) = Some l.
Proof.
  intros H. unfold safe_get_list.
  pose proof (mask_bool_long rt l H) as M.
  replace (0 <? List.length l)%nat with true
    by (symmetry; apply Nat.ltb_lt; lia).
  destruct (mask_bool rt (pd_isna (VList l))) as [[|] |]; congruence.
Qed.

Lemma safe_get_list_single (rt : runtime) (x : pyval) :
  is_list x = false -> checknull x = false ->
  safe_get_list rt (VList [x]) = Some [x].
Proof.
  intros L N. unfold safe_get_list, pd_isna.
  destruct x; try discriminate L; try discriminate N;
    cbn; try reflexivity.
  destruct f; try discriminate N; reflexivity.
Qed.

Lemma safe_get_list_references (rt : runtime) (l : list pyval) :
  reference_list l -> safe_get_list rt (VList l) = Some l.
Proof.
  intros [H | (x & -> & L & N)];
    [now apply safe_get_list_long | now apply safe_get_list_single].
Qed.

Lemma safe_get_list_none (rt : runtime) (v : pyval) :
  no_references v -> safe_get_list rt v = None.
Proof.
  intros [-> | [-> | ->]]; try reflexivity.
  unfold safe_get_list. cbn. destruct (numpy rt); reflexivity.
Qed.

(** ** The article expander *)

Lemma article_resolve_field (rt : runtime) (row : pydict) (cs : list pyval) :
  row_get row "companies" = VList cs -> reference_list cs ->
  Article.resolve_companies rt row = cs.
Proof.
  intros E R. unfold Article.resolve_companies.
  rewrite E, (safe_get_list_references rt cs R).
  destruct R as [H | (x & -> & _)]; [| reflexivity].
  destruct cs; [cbn in H; lia | reflexivity].
Qed.

Lemma article_resolve_none (rt : runtime) (row : pydict) :
  no_references (row_get row "companies") ->
  no_references (row_get row "all_companies") ->
  Article.resolve_companies rt row = [].
Proof.
  intros H1 H2. unfold Article.resolve_companies.
  now rewrite (safe_get_list_none rt _ H1), (safe_get_list_none rt _ H2).
Qed.

Lemma article_company_index_returns (rt : runtime) (company : pyval) :
  siret_scalar company -> exists bi, Article.company_index rt company = Ok bi.
Proof.
  destruct company; cbn [siret_scalar Article.company_index];
    try (intros _; eexists; reflexivity).
  intros H. destruct (format_siret_returns rt _ H) as [s ->].
  eexists. reflexivity.
Qed.

(** The rows of one article row whose references carry no list-valued
    [siret]. *)
Lemma article_row_block (rt : runtime) (row : pydict) :
  Forall siret_scalar (Article.resolve_companies rt row) ->
  exists block,
    Article.extract_row rt row = Ok block /\ block <> [] /\ fan_out rt row block.
Proof.
  intros Hs.
  assert (Hfield : forall cs, row_get row "companies" = VList cs ->
                              reference_list cs ->
                              Article.resolve_companies rt row = cs /\ cs <> []).
  { intros cs E R. split; [now apply article_resolve_field |].
    destruct R as [H | (x & -> & _)]; [| discriminate].
    destruct cs; [cbn in H; lia | discriminate]. }
  unfold fan_out, Article.extract_row.
  destruct (Article.resolve_companies rt row) as [| c cs] eqn:E.
  - eexists. split; [reflexivity |]. split; [discriminate |].
    split; [congruence |]. split.
    + intros cs' E' R. destruct (Hfield cs' E' R) as [<- N]. congruence.
    + intros _ _. eexists. split; [reflexivity |].
      now rewrite article_row_identity.
  - set (f := fun company =>
                base_index <- Article.company_index rt company ;;
                Ok (Article.create_article_row rt row base_index)).
    assert (F : Forall (fun a => exists b, f a = Ok b) (c :: cs)).
    { eapply Forall_impl; [| exact Hs]. intros a Ha.
      destruct (article_company_index_returns rt a Ha) as [bi Hb].
      exists (Article.create_article_row rt row bi). unfold f. now rewrite Hb. }
    destruct (mapM_ok f (c :: cs) F) as (out & Eo & F2).
    exists out. split; [exact Eo |].
    pose proof (Forall2_length F2) as L.
    assert (K : Forall2 (article_keyed rt) (c :: cs) out).
    { eapply Forall2_impl; [| exact F2]. intros a r Har. unfold f in Har.
      destruct (Article.company_index rt a) as [bi |] eqn:Eb; [| discriminate Har].
      cbn [bind] in Har. injection Har as <-.
      unfold article_keyed. rewrite article_row_identity.
      destruct a; cbn [Article.company_index] in Eb;
        try (injection Eb as <-; reflexivity).
      destruct (format_siret rt _) as [s |]; [| discriminate Eb].
      cbn [bind] in Eb. injection Eb as <-. now exists s. }
    split; [destruct out; [discriminate L | discriminate] |].
    split; [intros _; split; [now symmetry | exact K] | split].
    + intros cs' E' R. destruct (Hfield cs' E' R) as [<- _].
      split; [now symmetry | exact K].
    + intros H1 H2. rewrite (article_resolve_none rt row H1 H2) in E.
      discriminate E.
Qed.

Lemma concat_head {A : Type} (b : list A) (bs : list (list A)) :
  b <> [] -> List.concat (b :: bs) <> [].
Proof. destruct b; [congruence | discriminate]. Qed.

Lemma article_blocks (rt : runtime) (l : list pydict) :
  Forall (fun row => Forall siret_scalar (Article.resolve_companies rt row)) l ->
  exists blocks,
    mapM (Article.extract_row rt) l = Ok blocks /\
    Forall2 (fun row block => block <> [] /\ fan_out rt row block) l blocks.
Proof.
  induction 1 as [| row l Hrow _ (blocks & E & F)]; [now exists [] |].
  destruct (article_row_block rt row Hrow) as (block & Eb & N & P).
  exists (block :: blocks). cbn [mapM]. rewrite Eb, E. cbn [bind].
  split; [reflexivity | constructor; [now split | exact F]].
Qed.

(** C1.  In a chunk none of whose company references carries a list-valued
    [siret], [extract_chunk] appends one table holding, for each input row
    in order, one row per reference of the resolved list, each keyed by
    its reference: exactly k rows for a resolved list of length k > 0, and
    exactly one row with the all-empty identity key when neither
    [companies] nor [all_companies] holds a reference.  On an article
    whose one reference carries the list [1, 2] for [siret],
    [format_siret] raises and [extract_chunk] with it: no row is emitted
    where the resolved list has length 1. *)
Theorem article_fan_out (rt : runtime) :
  (forall (articles_list : list (list pydict)) (chunk_df : frame),
      Forall (fun row => Forall siret_scalar (Article.resolve_companies rt row))
             (rows chunk_df) ->
      exists blocks,
        Forall2 (fan_out rt) (rows chunk_df) blocks /\
        Article.extract_chunk rt articles_list chunk_df =
          Ok match rows chunk_df with
             | [] => articles_list
             | _ :: _ => (articles_list ++ [List.concat blocks])%list
             end) /\
  map (fun row => List.length (Article.resolve_companies rt row))
      (rows (DataFrame [Samples.listed_siret_article])) = [1%nat] /\
  Article.extract_chunk rt [] (DataFrame [Samples.listed_siret_article]) =
    Raise ValueError.
Proof.
  split; [| split; reflexivity].
  intros articles_list chunk_df H.
  destruct (article_blocks rt (rows chunk_df) H) as (blocks & E & F).
  exists blocks. split.
  - eapply Forall2_impl; [| exact F]. now intros row block [_ P].
  - unfold Article.extract_chunk, Article.expand. rewrite E. cbn [bind].
    destruct F as [| row block l bs [N _] _]; [reflexivity |].
    pose proof (concat_head block bs N) as C.
    destruct (List.concat (block :: bs)); [congruence | reflexivity].
Qed.

Lemma article_fan_out_witness :
  exists blocks,
    Article.extract_chunk rt_strict [] (DataFrame [Examples.article_row]) =
      Ok [List.concat blocks] /\
    map (@List.length pydict) blocks = [2%nat].
Proof.
  destruct (proj1 (article_fan_out rt_strict) [] (DataFrame [Examples.article_row]))
    as (blocks & F & E).
  - repeat constructor.
  - exists blocks. split; [exact E |].
    inversion F as [| row block l bs P F' El Eb]; subst.
    inversion F'; subst.
    destruct P as [P _]. destruct P as [L _]; [discriminate |].
    cbn [map]. now rewrite L.
Defined.

(** ** The signal expander *)

Lemma signal_siret_index_returns (rt : runtime) (siret_info : pyval) :
  siret_entry_scalar siret_info -> exists bi, Signal.siret_index rt siret_info = Ok bi.
Proof.
  intros H. unfold Signal.siret_index.
  assert (R : exists s,
             match siret_info with
             | VDict d => format_siret rt (dict_get d "siret" (VStr ""))
             | _ => format_siret rt siret_info
             end = Ok s).
  { destruct siret_info; cbn [siret_entry_scalar] in H;
      now apply format_siret_returns. }
  destruct R as [s ->]. eexists. reflexivity.
Qed.

Lemma signal_resolve_references (rt : runtime) (row : pydict) (cs : list pyval) :
  row_get row "companies" = VList cs -> reference_list cs ->
  Signal.resolve_companies rt row = cs /\ cs <> [].
Proof.
  intros E R. unfold Signal.resolve_companies.
  rewrite E, (safe_get_list_references rt cs R).
  destruct R as [H | (x & -> & _)]; [| split; [reflexivity | discriminate]].
  destruct cs; [cbn in H; lia | split; [reflexivity | discriminate]].
Qed.

Lemma signal_resolve_siret_references (rt : runtime) (row : pydict) (ss : list pyval) :
  row_get row "sirets" = VList ss -> reference_list ss ->
  Signal.resolve_sirets rt row = ss /\ ss <> [].
Proof.
  intros E R. unfold Signal.resolve_sirets.
  rewrite E, (safe_get_list_references rt ss R). cbn [list_or_empty].
  split; [reflexivity |].
  destruct R as [H | (x & -> & _)]; [| discriminate].
  destruct ss; [cbn in H; lia | discriminate].
Qed.

(** The rows of one signal row whose SIRET entries are not lists. *)
Lemma signal_row_block (rt : runtime) (row : pydict) :
  Forall siret_entry_scalar (Signal.resolve_sirets rt row) ->
  exists block,
    Signal.extract_row rt row = Ok block /\ block <> [] /\
    additive_union rt row block.
Proof.
  intros Hs.
  set (g := fun siret_info =>
              base_index <- Signal.siret_index rt siret_info ;;
              Ok (Signal.create_signal_row rt row base_index)).
  assert (F : Forall (fun a => exists b, g a = Ok b) (Signal.resolve_sirets rt row)).
  { eapply Forall_impl; [| exact Hs]. intros a Ha.
    destruct (signal_siret_index_returns rt a Ha) as [bi Hb].
    exists (Signal.create_signal_row rt row bi). unfold g. now rewrite Hb. }
  destruct (mapM_ok g _ F) as (siret_rows & Eo & F2).
  pose proof (Forall2_length F2) as L.
  set (company_rows :=
         map (fun company =>
                Signal.create_signal_row rt row (Signal.company_index rt company))
             (Signal.resolve_companies rt row)).
  assert (Lc : List.length company_rows = List.length (Signal.resolve_companies rt row))
    by apply length_map.
  assert (Kc : Forall2 (company_keyed rt) (Signal.resolve_companies rt row) company_rows).
  { apply Forall2_map_self. intros company. unfold company_keyed.
    rewrite signal_row_identity. now destruct company. }
  assert (Ks : Forall2 (siret_keyed rt) (Signal.resolve_sirets rt row) siret_rows).
  { eapply Forall2_impl; [| exact F2]. intros a r Har. unfold g in Har.
    unfold Signal.siret_index in Har.
    destruct (match a with
              | VDict d => format_siret rt (dict_get d "siret" (VStr ""))
              | _ => format_siret rt a
              end) as [s |] eqn:Es; [| discriminate Har].
    cbn [bind] in Har. injection Har as <-.
    unfold siret_keyed. rewrite signal_row_identity. exists s.
    split; [| reflexivity]. now destruct a. }
  assert (U : Signal.resolve_companies rt row <> [] \/ Signal.resolve_sirets rt row <> [] ->
              Signal.extract_row rt row = Ok (company_rows ++ siret_rows)%list).
  { intros H. unfold Signal.extract_row. fold g. rewrite Eo. cbn [bind].
    fold company_rows.
    destruct (Signal.resolve_companies rt row) as [| c cs]; [| reflexivity].
    destruct (Signal.resolve_sirets rt row) as [| s ss]; [| reflexivity].
    destruct H as [H | H]; congruence. }
  assert (Lsum : List.length (company_rows ++ siret_rows)%list =
                 (List.length (Signal.resolve_companies rt row) +
                  List.length (Signal.resolve_sirets rt row))%nat)
    by (rewrite length_app; lia).
  destruct (Signal.resolve_companies rt row) as [| c cs] eqn:Ec.
  - destruct (Signal.resolve_sirets rt row) as [| s ss] eqn:En.
    + exists [Signal.create_signal_row rt row empty_index].
      split; [| split; [discriminate |]].
      * unfold Signal.extract_row. now rewrite Ec, En.
      * unfold additive_union. rewrite Ec, En.
        split; [congruence | split].
        -- intros cs' ss' E1 R1 _ _.
           destruct (signal_resolve_references rt row cs' E1 R1) as [E N]. congruence.
        -- intros c1 c2 s1 s2 s3 E1 _.
           destruct (signal_resolve_references rt row _ E1 (or_introl (le_n 2))) as [E N].
           congruence.
    + exists (company_rows ++ siret_rows)%list.
      split; [apply U; right; discriminate |].
      split; [destruct siret_rows; [discriminate L |]; now destruct company_rows |].
      unfold additive_union. rewrite Ec, En.
      split; [congruence | split].
      * intros cs' ss' E1 R1 _ _.
        destruct (signal_resolve_references rt row cs' E1 R1) as [E N]. congruence.
      * intros c1 c2 s1 s2 s3 E1 _.
        destruct (signal_resolve_references rt row _ E1 (or_introl (le_n 2))) as [E N].
        congruence.
  - exists (company_rows ++ siret_rows)%list.
    split; [apply U; left; discriminate |].
    split; [unfold company_rows; discriminate |].
    unfold additive_union. rewrite Ec.
    split; [| split].
    + intros _ _. exists company_rows, siret_rows. now repeat split.
    + intros cs' ss' E1 R1 E2 R2. rewrite Lsum.
      destruct (signal_resolve_references rt row cs' E1 R1) as [E _].
      destruct (signal_resolve_siret_references rt row ss' E2 R2) as [E' _].
      rewrite E' . rewrite Ec in E. now rewrite E.
    + intros c1 c2 s1 s2 s3 E1 E2. rewrite Lsum.
      destruct (signal_resolve_references rt row _ E1 (or_introl (le_n 2))) as [E _].
      destruct (signal_resolve_siret_references rt row _ E2
                  (or_introl (le_S 2 2 (le_n 2)))) as [E' _].
      rewrite E'. rewrite Ec in E. now rewrite E.
Qed.

Lemma signal_blocks (rt : runtime) (l : list pydict) :
  Forall (fun row => Forall siret_entry_scalar (Signal.resolve_sirets rt row)) l ->
  exists blocks,
    mapM (Signal.extract_row rt) l = Ok blocks /\
    Forall2 (fun row block => block <> [] /\ additive_union rt row block) l blocks.
Proof.
  induction 1 as [| row l Hrow _ (blocks & E & F)]; [now exists [] |].
  destruct (signal_row_block rt row Hrow) as (block & Eb & N & P).
  exists (block :: blocks). cbn [mapM]. rewrite Eb, E. cbn [bind].
  split; [reflexivity | constructor; [now split | exact F]].
Qed.

(** C2.  In a chunk none of whose SIRET entries is a list,
    [extract_chunk] appends one table holding, for each input row in
    order, its rows; for a row whose resolved company-reference list (m
    references) and resolved [sirets] list (n entries) are both non-empty
    these are the m company-keyed rows followed by the n SIRET-keyed rows,
    m + n in all, and 5 for 2 references and 3 entries.  On a signal with
    one company reference whose one SIRET entry is the list [1, 2],
    [format_siret] raises and [extract_chunk] with it: no row is emitted
    where m + n = 2. *)
Theorem signal_additive_union (rt : runtime) :
  (forall (signals_list : list (list pydict)) (chunk_df : frame),
      Forall (fun row => Forall siret_entry_scalar (Signal.resolve_sirets rt row))
             (rows chunk_df) ->
      exists blocks,
        Forall2 (additive_union rt) (rows chunk_df) blocks /\
        Signal.extract_chunk rt signals_list chunk_df =
          Ok match rows chunk_df with
             | [] => signals_list
             | _ :: _ => (signals_list ++ [List.concat blocks])%list
             end) /\
  map (fun row => (List.length (Signal.resolve_companies rt row),
                   List.length (Signal.resolve_sirets rt row)))
      (rows (DataFrame [Samples.listed_siret_signal])) = [(1%nat, 1%nat)] /\
  Signal.extract_chunk rt [] (DataFrame [Samples.listed_siret_signal]) =
    Raise ValueError.
Proof.
  split; [| split; reflexivity].
  intros signals_list chunk_df H.
  destruct (signal_blocks rt (rows chunk_df) H) as (blocks & E & F).
  exists blocks. split.
  - eapply Forall2_impl; [| exact F]. now intros row block [_ P].
  - unfold Signal.extract_chunk, Signal.expand. rewrite E. cbn [bind].
    destruct F as [| row block l bs [N _] _]; [reflexivity |].
    pose proof (concat_head block bs N) as C.
    destruct (List.concat (block :: bs)); [congruence | reflexivity].
Qed.

Lemma signal_additive_union_witness :
  exists blocks,
    Signal.extract_chunk rt_strict [] (DataFrame [Examples.signal_row]) =
      Ok [List.concat blocks] /\
    map (@List.length pydict) blocks = [5%nat].
Proof.
  destruct (proj1 (signal_additive_union rt_strict) [] (DataFrame [Examples.signal_row]))
    as (blocks & F & E).
  - repeat constructor.
  - exists blocks. split; [exact E |].
    inversion F as [| row block l bs P F' El Eb]; subst.
    inversion F'; subst.
    destruct P as (_ & _ & P).
    cbn [map]. now rewrite (P _ _ _ _ _ eq_refl eq_refl).
Defined.

(** ** Frames *)

Lemma add_keys_keeps (r : pydict) :
  forall cols k,
    existsb (String.eqb k) cols = true ->
    existsb (String.eqb k) (add_keys cols r) = true.
Proof.
  unfold add_keys.
  induction r as [| [k0 v0] r IH]; intros cols k H; cbn [fold_left fst]; [exact H |].
  apply IH. destruct (existsb (String.eqb k0) cols); [exact H |].
  rewrite existsb_app, H. reflexivity.
Qed.

Lemma add_keys_adds (r : pydict) :
  forall cols k,
    dict_has r k = true -> existsb (String.eqb k) (add_keys cols r) = true.
Proof.
  unfold add_keys, dict_has.
  induction r as [| [k0 v0] r IH]; intros cols k H; cbn [fold_left fst dict_find] in *;
    [discriminate H |].
  destruct (String.eqb k k0) eqn:E.
  - apply String.eqb_eq in E. subst k0.
    apply (add_keys_keeps r).
    destruct (existsb (String.eqb k) cols) eqn:Ec; [exact Ec |].
    rewrite existsb_app. cbn [existsb]. rewrite String.eqb_refl.
    now rewrite orb_true_r.
  - now apply IH.
Qed.

Lemma frame_cell (r : pydict) (k : string) (cols : list string) :
  existsb (String.eqb k) cols = true ->
  dict_find (map (fun c => (c, dict_get r c NaN)) cols) k = Some (dict_get r k NaN).
Proof.
  induction cols as [| c cols IH]; intros H; cbn [existsb map dict_find] in *;
    [discriminate H |].
  destruct (String.eqb k c) eqn:E.
  - apply String.eqb_eq in E. now subst c.
  - cbn [orb] in H. now apply IH.
Qed.

(** In the frame of two records, a key of either is a column and each row
    holds its record's value there. *)
Lemma frame_of_two (a b : pydict) (k : string) :
  dict_has a k = true \/ dict_has b k = true ->
  exists ra rb,
    rows (DataFrame [a; b]) = [ra; rb] /\
    row_get ra k = dict_get a k NaN /\ row_get rb k = dict_get b k NaN.
Proof.
  intros H. unfold DataFrame. cbn [fold_left rows map].
  do 2 eexists. split; [reflexivity |].
  assert (C : existsb (String.eqb k) (add_keys (add_keys [] a) b) = true).
  { destruct H as [H | H]; [| now apply add_keys_adds].
    apply add_keys_keeps. now apply add_keys_adds. }
  split; unfold row_get, dict_get at 1; now rewrite frame_cell by exact C.
Qed.

(** ** Embedded articles *)

Lemma scenario_frame (name siren : string) (n : Z) (first second : pydict) :
  DataFrame [company_record name siren n first second] =
  {| columns := ["socialName"; "siren"; "siret"; "articles"];
     rows := [company_record name siren n first second] |}.
Proof. reflexivity. Qed.

Lemma scenario_base_index (rt : runtime) (name siren : string) (n : Z)
    (first second : pydict) :
  Company.base_index rt (DataFrame [company_record name siren n first second]) =
  Ok [[("company_name", VStr name); ("siren", VStr siren);
       ("siret", VStr (format_014d n))]].
Proof. reflexivity. Qed.

Lemma scenario_kpi_records (rt : runtime) (name siren : string) (n : Z)
    (first second : pydict) :
  Company.kpi_records rt (DataFrame [company_record name siren n first second]) =
  Ok [].
Proof. reflexivity. Qed.

Lemma with_company_listed (record first own : pydict) :
  dict_find first "companies" = Some (VList [VDict own]) ->
  py_eq (Company.company_info record) (VDict own) = false ->
  Company.with_company record (VDict first) =
  Ok (dict_set first "companies" (VList [VDict own; Company.company_info record])).
Proof.
  intros Hc Hne. unfold Company.with_company, dict_has, dict_get.
  rewrite Hc. cbv iota. rewrite Hc. cbn [existsb app]. rewrite Hne. reflexivity.
Qed.

Lemma with_company_unlisted (record second : pydict) :
  dict_has second "companies" = false ->
  exists a,
    Company.with_company record (VDict second) = Ok a /\
    dict_find a "companies" = Some (VList [Company.company_info record]).
Proof.
  intros Hh. unfold Company.with_company. rewrite Hh.
  unfold dict_get. rewrite dict_find_set, String.eqb_refl.
  cbn [existsb app]. eexists. split; [reflexivity |].
  now rewrite dict_find_set, String.eqb_refl.
Qed.

Lemma record_articles_scenario (name siren : string) (n : Z) (first second a1 a2 : pydict) :
  let record := company_record name siren n first second in
  first <> [] -> second <> [] ->
  Company.with_company record (VDict first) = Ok a1 ->
  Company.with_company record (VDict second) = Ok a2 ->
  Company.record_articles record = Ok [a1; a2].
Proof.
  intros record H1 H2 W1 W2.
  assert (T1 : truthy (VDict first) = true) by (now destruct first).
  assert (T2 : truthy (VDict second) = true) by (now destruct second).
  unfold Company.record_articles, Company.articles_in, Company.articles_under.
  change (Company.articles_at record record "article") with (@Ok (list pydict) []).
  change (dict_find record "computed") with (@None pyval).
  change (dict_find record "v1legacy") with (@None pyval).
  cbn [bind app].
  unfold Company.articles_at.
  change (dict_has record "articles") with true.
  change (dict_get record "articles" VNone) with (VList [VDict first; VDict second]).
  cbn [truthy andb]. unfold Company.extract_articles_from_record.
  cbn [truthy negb]. cbn [Company.as_list filter is_dict orb].
  rewrite T1, T2. cbn [andb mapM]. fold record. rewrite W1, W2. reflexivity.
Qed.

(** The article expander on the row of an article that lists [own] and then
    the parent, and on the row of one that lists the parent alone. *)
Lemma article_rows_two (rt : runtime) (row own : pydict) (name siren : string) (n : Z) :
  row_get row "companies" = VList [VDict own; parent_info name siren n] ->
  is_list (dict_get own "siret" (VStr "")) = false ->
  exists out own_siret,
    Article.extract_row rt row = Ok out /\
    format_siret rt (dict_get own "siret" (VStr "")) = Ok own_siret /\
    map identity out =
      [(dict_get own "label" (VStr ""),
        VStr (py_str rt (dict_get own "siren" (VStr ""))),
        VStr own_siret);
       parent_key name siren n].
Proof.
  intros E Hs.
  destruct (format_siret_returns rt _ Hs) as [s Es].
  unfold Article.extract_row.
  rewrite (article_resolve_field rt row _ E) by (left; cbn; lia).
  cbn [mapM Article.company_index parent_info]. rewrite Es.
  change (dict_get [("label", VStr name); ("siren", VStr siren); ("siret", VInt n)]
            "siret" (VStr "")) with (VInt n).
  rewrite format_siret_int. cbn [bind].
  do 2 eexists. split; [reflexivity |]. split; [reflexivity |].
  cbn [map]. now rewrite !article_row_identity.
Qed.

Lemma article_rows_one (rt : runtime) (row : pydict) (name siren : string) (n : Z) :
  row_get row "companies" = VList [parent_info name siren n] ->
  exists out,
    Article.extract_row rt row = Ok out /\
    map identity out = [parent_key name siren n].
Proof.
  intros E. unfold Article.extract_row.
  rewrite (article_resolve_field rt row _ E)
    by (right; eexists; repeat split; reflexivity).
  cbn [mapM Article.company_index parent_info].
  change (dict_get [("label", VStr name); ("siren", VStr siren); ("siret", VInt n)]
            "siret" (VStr "")) with (VInt n).
  rewrite format_siret_int. cbn [bind].
  eexists. split; [reflexivity |].
  cbn [map]. now rewrite !article_row_identity.
Qed.

(** C3 (as amended).  For a company record with [socialName], [siren], an
    integer [siret] and an [articles] list of two articles, the first listing
    one company [own] of its own (another company, with a [siret] that is
    not a list) and the second listing none: the company extractor gives
    each article a copy whose [companies] ends with the record's own
    company, the article expander gets one row per copy, and [09_articles]
    holds two rows for the first article, keyed to [own] and then to the
    record's company, followed by one row for the second article, keyed to
    the record's company. *)
Theorem embedded_article_rows (rt : runtime) (name siren : string) (n : Z)
    (own first second : pydict) :
  dict_find first "companies" = Some (VList [VDict own]) ->
  py_eq (parent_info name siren n) (VDict own) = false ->
  is_list (dict_get own "siret" (VStr "")) = false ->
  second <> [] ->
  dict_has second "companies" = false ->
  let record := company_record name siren n first second in
  exists st a1 a2 r1 r2 first_rows second_rows own_siret,
    Company.extract_chunk rt Company.init (DataFrame [record]) = Ok st /\
    Company.with_company record (VDict first) = Ok a1 /\
    Company.with_company record (VDict second) = Ok a2 /\
    rows (DataFrame [a1; a2]) = [r1; r2] /\
    Article.extract_row rt r1 = Ok first_rows /\
    Article.extract_row rt r2 = Ok second_rows /\
    Company.articles st = (first_rows ++ second_rows)%list /\
    format_siret rt (dict_get own "siret" (VStr "")) = Ok own_siret /\
    map identity first_rows =
      [(dict_get own "label" (VStr ""),
        VStr (py_str rt (dict_get own "siren" (VStr ""))),
        VStr own_siret);
       parent_key name siren n] /\
    map identity second_rows = [parent_key name siren n].
Proof.
  intros Hc Hne Hs H2 Hh record.
  assert (H1 : first <> []) by (intros ->; discriminate Hc).
  assert (Ei : Company.company_info record = parent_info name siren n) by reflexivity.
  pose proof (with_company_listed record first own Hc) as W1.
  rewrite Ei in W1. specialize (W1 Hne).
  destruct (with_company_unlisted record second Hh) as (a2 & W2 & C2).
  rewrite Ei in C2.
  set (a1 := dict_set first "companies"
               (VList [VDict own; parent_info name siren n])) in *.
  assert (C1 : dict_find a1 "companies" =
               Some (VList [VDict own; parent_info name siren n])).
  { unfold a1. now rewrite dict_find_set, String.eqb_refl. }
  assert (D1 : dict_has a1 "companies" = true) by (unfold dict_has; now rewrite C1).
  destruct (frame_of_two a1 a2 "companies" (or_introl D1)) as (r1 & r2 & Er & G1 & G2).
  unfold dict_get in G1, G2. rewrite C1 in G1. rewrite C2 in G2.
  destruct (article_rows_two rt r1 own name siren n G1 Hs)
    as (first_rows & own_siret & X1 & Es & I1).
  destruct (article_rows_one rt r2 name siren n G2) as (second_rows & X2 & I2).
  assert (N1 : first_rows <> []) by (intros ->; discriminate I1).
  pose proof (record_articles_scenario name siren n first second a1 a2 H1 H2 W1 W2) as RA.
  cbv zeta in RA. fold record in RA.
  eexists. exists a1, a2, r1, r2, first_rows, second_rows, own_siret.
  split; [| repeat (split; [eassumption |]); split; [| split; [exact Es | split; assumption]]].
  - unfold Company.extract_chunk, record.
    rewrite scenario_base_index, scenario_kpi_records, scenario_frame.
    fold record. cbn [bind rows mapM]. rewrite RA. cbn [bind].
    reflexivity.
  - cbn [Company.articles Company.articles_list flat_map List.concat app
           Company.forward_articles Company.init].
    unfold Article.extract_chunk, Article.expand. rewrite Er.
    cbn [mapM]. rewrite X1, X2. cbn [bind List.concat].
    rewrite app_nil_r.
    destruct first_rows as [| x xs]; [congruence |].
    cbn [app try_or]. unfold Company.articles, Article.get_datasets.
    cbn [Company.articles_list List.concat app].
    now rewrite app_nil_r.
Qed.

Lemma embedded_article_rows_witness :
  exists st,
    Company.extract_chunk rt_strict Company.init (DataFrame [Examples.acme]) = Ok st /\
    List.length (Company.articles st) = 3%nat.
Proof.
  destruct (embedded_article_rows rt_strict "Acme" "123456789" 12345678901234
              Examples.other Examples.first_article Examples.second_article)
    as (st & a1 & a2 & r1 & r2 & fr & sr & s & E & _ & _ & _ & _ & _ & A & _ & I1 & I2);
    try reflexivity; try discriminate.
  exists st. split; [exact E |].
  rewrite A, length_app, <- (length_map identity fr), <- (length_map identity sr), I1, I2.
  reflexivity.
Defined.

(** The record of the end-to-end scenario: in [09_articles] the first
    article (title A1) has two rows, its own company and then Acme; the
    second (title A2) has one. *)
Lemma embedded_article_counterexample :
  exists st,
    Company.extract_chunk rt_strict Company.init (DataFrame [Examples.acme]) = Ok st /\
    map (fun r => (dict_get r "title" VNone, identity r)) (Company.articles st) =
    [(VStr "A1", (VStr "Other", VStr "987654321", VStr "98765432100011"));
     (VStr "A1", (VStr "Acme", VStr "123456789", VStr "12345678901234"));
     (VStr "A2", (VStr "Acme", VStr "123456789", VStr "12345678901234"))].
Proof. eexists. split; reflexivity. Qed.

(** ** The values [format_siret] returns *)

Lemma format_014d_length (n : Z) : (14 <= String.length (format_014d n))%nat.
Proof.
  unfold format_014d. destruct (n <? 0); cbn [String.length];
    rewrite digits_fixed_length; cbn [String.length]; lia.
Qed.

Lemma format_014d_not_nan (n : Z) : format_014d n <> "nan".
Proof.
  intros E. pose proof (format_014d_length n) as L. rewrite E in L.
  cbn in L. lia.
Qed.

Lemma format_014d_siret14 (n : Z) :
  0 <= n < 10 ^ 14 -> is_siret14 (format_014d n) = true.
Proof.
  intros H. rewrite format_014d_small by assumption. unfold is_siret14.
  now rewrite digits_fixed_length, digits_fixed_all_digits.
Qed.

Lemma format_014d_value (n : Z) :
  0 <= n < 10 ^ 14 -> digits_value 0 (format_014d n) = n.
Proof.
  intros H. rewrite format_014d_small by assumption.
  rewrite digits_fixed_value. cbn [digits_value].
  change (Z.of_nat 14) with 14. rewrite Z.mod_small by assumption. lia.
Qed.

(** The padding of an integer: 14 characters or more, never "nan", and the
    14 digits of the integer when it is in [0, 10^14). *)
Lemma padded_shape (n : Z) :
  format_014d n <> "nan" /\
  (14 <= String.length (format_014d n))%nat /\
  (0 <= n < 10 ^ 14 ->
   is_siret14 (format_014d n) = true /\ digits_value 0 (format_014d n) = n).
Proof.
  split; [apply format_014d_not_nan | split; [apply format_014d_length |]].
  intros H. split; [now apply format_014d_siret14 | now apply format_014d_value].
Qed.

(** The result on an input that is no number, once the null test has
    answered. *)
Lemma format_siret_general (rt : runtime) (v : pyval) :
  is_list v = true \/ is_dict v = true \/ is_str v = true ->
  forall na, mask_bool rt (pd_isna v) = Ok na ->
  format_siret rt v =
  Ok (if na || eq_str v "" || eq_str v "nan" then ""
      else
        let val_str := strip (py_str rt v) in
        if String.eqb val_str "" || String.eqb val_str "nan" then ""
        else match (f <- py_float_str val_str ;; int_of_float f) with
             | Ok n => format_014d n
             | Raise _ => val_str
             end).
Proof.
  intros Hv na E. unfold format_siret. rewrite E. cbn [bind].
  destruct (na || eq_str v "" || eq_str v "nan"); [reflexivity |].
  assert (B : (let val_str := strip (py_str rt v) in
               if negb (String.eqb val_str "") && negb (String.eqb val_str "nan") then
                 catch
                   (f <- py_float_str val_str ;;
                    z <- int_of_float f ;;
                    Ok (format_014d z))
                   (Ok val_str)
               else Ok "") =
              Ok (let val_str := strip (py_str rt v) in
                  if String.eqb val_str "" || String.eqb val_str "nan" then ""
                  else match (f <- py_float_str val_str ;; int_of_float f) with
                       | Ok n => format_014d n
                       | Raise _ => val_str
                       end)).
  { cbv zeta.
    destruct (String.eqb (strip (py_str rt v)) ""); [reflexivity |].
    destruct (String.eqb (strip (py_str rt v)) "nan"); [reflexivity |].
    cbn [negb andb orb].
    destruct (py_float_str (strip (py_str rt v))) as [f | e]; cbn [bind catch];
      [| reflexivity].
    destruct (int_of_float f); reflexivity. }
  destruct v; try (destruct Hv as [Hv | [Hv | Hv]]; discriminate Hv);
    exact (f_equal (fun r => catch r (Ok _)) B).
Qed.

(** C5 (as amended).  [format_siret] raises only for a list.  What it
    returns is never the string "nan", and is decided by the input: the
    empty string for a blank input; otherwise, for an input with an
    integer value n, the sign-aware zero-padding of n to width 14, which
    has 14 characters or more and is the 14-digit string of value n when
    0 <= n < 10^14; otherwise the stripped string form of the input, as it
    is. *)
Theorem format_siret_shape (rt : runtime) (v : pyval) :
  match format_siret rt v with
  | Raise _ => is_list v = true
  | Ok s =>
      s <> "nan" /\
      if siret_blank rt v then s = ""
      else match siret_integer rt v with
           | Some n =>
               s = format_014d n /\
               (14 <= String.length s)%nat /\
               (0 <= n < 10 ^ 14 -> is_siret14 s = true /\ digits_value 0 s = n)
           | None => s = strip (py_str rt v)
           end
  end.
Proof.
  assert (P : forall n,
             format_014d n <> "nan" /\
             format_014d n = format_014d n /\
             (14 <= String.length (format_014d n))%nat /\
             (0 <= n < 10 ^ 14 ->
              is_siret14 (format_014d n) = true /\ digits_value 0 (format_014d n) = n)).
  { intros n. destruct (padded_shape n) as (A & B & C).
    split; [exact A | split; [reflexivity | split; [exact B | exact C]]]. }
  assert (G : forall na,
             is_list v = true \/ is_dict v = true \/ is_str v = true ->
             mask_bool rt (pd_isna v) = Ok na ->
             match format_siret rt v with
             | Raise _ => is_list v = true
             | Ok s =>
                 s <> "nan" /\
                 if siret_blank rt v then s = ""
                 else match siret_integer rt v with
                      | Some n =>
                          s = format_014d n /\
                          (14 <= String.length s)%nat /\
                          (0 <= n < 10 ^ 14 ->
                           is_siret14 s = true /\ digits_value 0 s = n)
                      | None => s = strip (py_str rt v)
                      end
             end).
  { intros na Hv E. rewrite (format_siret_general rt v Hv na E).
    assert (Eb : siret_blank rt v =
                 (na || eq_str v "" || eq_str v "nan"
                  || (String.eqb (strip (py_str rt v)) ""
                      || String.eqb (strip (py_str rt v)) "nan"))).
    { unfold siret_blank. rewrite E. cbn [try_or].
      destruct v; try reflexivity;
        destruct Hv as [Hv | [Hv | Hv]]; discriminate Hv. }
    assert (Ei : siret_integer rt v =
                 match (f <- py_float_str (strip (py_str rt v)) ;; int_of_float f) with
                 | Ok z => Some z
                 | Raise _ => None
                 end).
    { destruct v; try reflexivity;
        destruct Hv as [Hv | [Hv | Hv]]; discriminate Hv. }
    rewrite Eb, Ei. cbv zeta.
    destruct (na || eq_str v "" || eq_str v "nan"); cbn [orb];
      [split; [discriminate | reflexivity] |].
    destruct (String.eqb (strip (py_str rt v)) ""); cbn [orb];
      [split; [discriminate | reflexivity] |].
    destruct (String.eqb (strip (py_str rt v)) "nan") eqn:En;
      [split; [discriminate | reflexivity] |].
    apply String.eqb_neq in En.
    destruct (f <- py_float_str (strip (py_str rt v)) ;; int_of_float f) as [n | e].
    - destruct (P n) as (A & B). now split.
    - now split. }
  destruct v as [| b | z | f | s | l | d].
  - split; [discriminate | reflexivity].
  - cbn. destruct (P (if b then 1 else 0)) as (A & B). now split.
  - rewrite format_siret_int. destruct (P z) as (A & B). now split.
  - destruct f as [| neg | neg m e].
    + split; [discriminate | reflexivity].
    + destruct neg; (split; [discriminate | reflexivity]).
    + unfold format_siret.
      cbn [pd_isna checknull mask_bool bind eq_str orb catch int_of_float
           siret_blank siret_integer try_or].
      destruct (P (if neg
                   then - (if 0 <=? e then m * 2 ^ e else m / 2 ^ (- e))
                   else if 0 <=? e then m * 2 ^ e else m / 2 ^ (- e)))
        as (A & B).
      now split.
  - apply (G false); [now right; right | reflexivity].
  - destruct (mask_bool rt (pd_isna (VList l))) as [na | e] eqn:E.
    + apply (G na); [now left | reflexivity].
    + unfold format_siret. rewrite E. reflexivity.
  - apply (G false); [now right; left | reflexivity].
Qed.

(** Inputs on which the result is neither empty nor 14 digits: a string that
    is no number, the string "NaN", a negative integer. *)
Lemma format_siret_counterexample :
  format_siret rt_strict (VStr "abc") = Ok "abc" /\
  is_siret14 "abc" = false /\
  format_siret rt_strict (VStr "NaN") = Ok "NaN" /\
  format_siret rt_strict (VInt (-5)) = Ok "-0000000000005" /\
  is_siret14 "-0000000000005" = false.
Proof. repeat split; reflexivity. Qed.

(** ** Where [format_siret] raises *)

(** C8.  On a list of two elements the null test of line 33, which stands
    before the [try], raises ValueError, whatever the runtime; a signal row
    whose [sirets] holds such a list makes [extract_chunk] raise with it. *)
Theorem format_siret_raises (rt : runtime) :
  format_siret rt (VList [VInt 1; VInt 2]) = Raise ValueError /\
  Signal.extract_row rt Examples.nested_siret_row = Raise ValueError.
Proof. split; reflexivity. Qed.

(** ** Null identity cells *)

Lemma filled_update (u d : pydict) (k : string) :
  existsb (String.eqb k) (map fst u) = false ->
  filled (dict_update d u) k = filled d k.
Proof. intros H. unfold filled. now rewrite dict_find_update. Qed.

Lemma signal_row_complete (rt : runtime) (row base_index : pydict) :
  key_complete base_index = true ->
  key_complete (Signal.create_signal_row rt row base_index) = true.
Proof.
  intros H. unfold key_complete, Signal.create_signal_row.
  now rewrite !filled_update by reflexivity.
Qed.

(** The signal expander fills the three identity cells of every row. *)
Lemma signal_rows_complete (rt : runtime) (row : pydict) (out : list pydict) :
  Signal.extract_row rt row = Ok out ->
  Forall (fun r => key_complete r = true) out.
Proof.
  unfold Signal.extract_row. intros E.
  assert (S : forall l rs,
             mapM (fun siret_info =>
                     base_index <- Signal.siret_index rt siret_info ;;
                     Ok (Signal.create_signal_row rt row base_index)) l = Ok rs ->
             Forall (fun r => key_complete r = true) rs).
  { induction l as [| a l IH]; intros rs H; cbn [mapM] in H.
    - injection H as <-. constructor.
    - unfold Signal.siret_index in H at 1.
      destruct (match a with
                | VDict d => format_siret rt (dict_get d "siret" (VStr ""))
                | _ => format_siret rt a
                end) as [s |]; [| discriminate H].
      cbn [bind] in H.
      destruct (mapM _ l) as [rs' |]; [| discriminate H].
      cbn [bind] in H. injection H as <-.
      constructor; [now apply signal_row_complete | now apply IH]. }
  assert (C : forall l,
             Forall (fun r => key_complete r = true)
               (map (fun company =>
                       Signal.create_signal_row rt row (Signal.company_index rt company)) l)).
  { induction l as [| a l IH]; cbn [map]; constructor; [| exact IH].
    apply signal_row_complete. now destruct a. }
  destruct (Signal.resolve_companies rt row) as [| c cs] eqn:Ec.
  - destruct (Signal.resolve_sirets rt row) as [| s ss] eqn:Es.
    + injection E as <-. constructor; [| constructor].
      now apply signal_row_complete.
    + destruct (mapM _ (s :: ss)) as [rs |] eqn:Em; [| discriminate E].
      cbn [bind map app] in E. injection E as <-. now apply (S (s :: ss)).
  - destruct (mapM _ (Signal.resolve_sirets rt row)) as [rs |] eqn:Em;
      [| discriminate E].
    cbn [bind] in E. injection E as <-.
    change (Forall (fun r => key_complete r = true)
              (map (fun company =>
                      Signal.create_signal_row rt row (Signal.company_index rt company))
                   (c :: cs) ++ rs)%list).
    apply Forall_app. split; [apply C | now apply (S _ _ Em)].
Qed.

Lemma signal_rows_complete_witness :
  exists out,
    Signal.extract_row rt_strict Examples.signal_row = Ok out /\
    Forall (fun r => key_complete r = true) out.
Proof.
  eexists. split; [reflexivity |].
  now apply (signal_rows_complete rt_strict Examples.signal_row).
Defined.

(** C9.  An article whose company reference carries [label: null] gets a row
    whose [company_name] is null; a KPI year whose metrics have a null entry
    named [siren] gets a row whose [siren] is null. *)
Theorem identity_key_null (rt : runtime) :
  (exists r,
      Article.extract_row rt Examples.null_label_row = Ok [r] /\
      identity r = (VNone, VStr "123456789", VStr "12345678901234") /\
      key_complete r = false) /\
  (exists r,
      Company.kpi_records rt (DataFrame [Examples.kpi_clash]) = Ok [r] /\
      identity r = (VStr "Acme", VNone, VStr "12345678901234") /\
      key_complete r = false).
Proof. split; eexists; repeat split; reflexivity. Qed.

(** ** The count columns of a signal row *)

Lemma np_shape_flat (l : list pyval) :
  Forall (fun x => is_list x = false) l ->
  np_flat (List.length (np_shape (VList l))) (VList l) = l.
Proof.
  intros F.
  assert (E : np_shape (VList l) = [List.length l]).
  { cbn [np_shape]. f_equal. destruct F as [| x l Hx F]; [reflexivity |].
    cbn [map]. replace (np_shape x) with (@nil nat) by (now destruct x).
    clear Hx. induction F as [| y l Hy F IH]; [reflexivity |].
    cbn [map fold_left]. replace (np_shape y) with (@nil nat) by (now destruct y).
    exact IH. }
  rewrite E. cbn [List.length np_flat].
  clear. induction l as [| x l IH]; cbn [flat_map app]; [reflexivity |].
  now rewrite IH.
Qed.

(** On a list of two or more references the [is_not_na] of
    [_create_signal_row] answers False: the list is taken for missing. *)
Lemma signal_row_list_long (rt : runtime) (l : list pyval) :
  (2 <= List.length l)%nat -> Forall (fun x => is_list x = false) l ->
  Signal.row_list rt (VList l) [] = [].
Proof.
  intros H F. unfold Signal.row_list, Signal.is_not_na, pd_isna.
  rewrite (np_shape_flat l F).
  destruct l as [| a [| b l]]; cbn [List.length] in H; try lia.
  reflexivity.
Qed.

(** C10.  A signal row listing 2 companies and 3 SIRET entries gets 5 rows,
    and each of them has [companies_count] 0 and [sirets_count] 0. *)
Theorem signal_counts_zero (rt : runtime) :
  exists out,
    Signal.extract_row rt Examples.signal_row = Ok out /\
    map (fun r => (dict_get r "companies_count" VNone,
                   dict_get r "sirets_count" VNone)) out =
    [(VInt 0, VInt 0); (VInt 0, VInt 0); (VInt 0, VInt 0);
     (VInt 0, VInt 0); (VInt 0, VInt 0)].
Proof. eexists. split; reflexivity. Qed.

(** ** The KPI candidates *)

Lemma mask_bool_notna_scalar (rt : runtime) (v : pyval) :
  is_list v = false -> mask_bool rt (pd_notna v) = Ok (negb (checknull v)).
Proof. destruct v; intros H; try discriminate H; reflexivity. Qed.

Lemma or_else_some (r : result (list pydict)) (next : result (list pydict)) :
  Company.or_else (rs <- r ;; Ok (Some rs)) next = r.
Proof. now destruct r. Qed.

Lemma kpi_column_chain (rt : runtime) (df : frame) (row : pydict) (col : string)
    (next : result (list pydict)) :
  is_list (row_get row col) = false ->
  Company.or_else (Company.kpi_column rt df row col) next =
  match column_mapping df row col with
  | Some mapping => Company.extract_kpi_from_record rt row (VDict mapping)
  | None => next
  end.
Proof.
  intros H. unfold Company.kpi_column, column_mapping.
  destruct (has_col df col); [| reflexivity].
  rewrite (mask_bool_notna_scalar rt _ H). cbn [bind].
  destruct (row_get row col); try discriminate H;
    try (cbn [is_dict checknull negb andb]; rewrite ?andb_false_r; reflexivity).
  cbn [is_dict checknull negb andb]. apply or_else_some.
Qed.

Lemma kpi_inside_chain (rt : runtime) (row container : pydict)
    (next : result (list pydict)) :
  Company.or_else (Company.kpi_inside rt row container) next =
  match nonempty_mapping (dict_get container "kpi" VNone) with
  | Some mapping => Company.extract_kpi_from_record rt row (VDict mapping)
  | None => next
  end.
Proof.
  unfold Company.kpi_inside, nonempty_mapping.
  destruct (dict_get container "kpi" VNone) as [| | | | | | [| item d]];
    try (cbn [truthy is_dict andb]; rewrite ?andb_false_r; reflexivity).
  cbn [truthy is_dict andb]. apply or_else_some.
Qed.

Lemma kpi_container_chain (rt : runtime) (df : frame) (row : pydict) (col : string)
    (next : result (list pydict)) :
  is_list (row_get row col) = false ->
  Company.or_else (Company.kpi_container rt df row col) next =
  match container_mapping rt df row col with
  | Some mapping => Company.extract_kpi_from_record rt row (VDict mapping)
  | None => next
  end.
Proof.
  intros H. unfold Company.kpi_container, container_mapping.
  destruct (has_col df col); [| reflexivity].
  rewrite (mask_bool_notna_scalar rt _ H). cbn [bind].
  destruct (row_get row col) as [| b | z | f | s | l | c]; try discriminate H;
    cbn [checknull negb]; try reflexivity.
  - destruct f; reflexivity.
  - destruct (String.eqb s ""); cbn [negb]; [reflexivity |].
    destruct (json_loads rt s) as [[| | | | | | c] |]; try reflexivity.
    apply kpi_inside_chain.
  - apply kpi_inside_chain.
Qed.

(** The loop body as a chain.  For a record whose five candidate cells hold
    no list, it takes the candidates in the fixed order and returns the rows
    of the first one that resolves, where a top-level or flattened column
    resolves as soon as its cell is a mapping (an empty one too) and a
    container resolves when it holds a non-empty mapping under [kpi]; later
    candidates are not consulted, and there are no rows when none
    resolves. *)
Theorem kpi_candidate_chain (rt : runtime) (df : frame) (row : pydict) :
  Forall (fun col => is_list (row_get row col) = false) kpi_cells ->
  Company.kpi_of_row rt df row =
  match first_some (kpi_candidates rt df row) with
  | Some mapping => Company.extract_kpi_from_record rt row (VDict mapping)
  | None => Ok []
  end.
Proof.
  intros F. unfold kpi_cells in F.
  repeat match goal with
         | H : Forall _ (_ :: _) |- _ => inversion H; subst; clear H
         end.
  unfold Company.kpi_of_row, kpi_candidates.
  rewrite !kpi_column_chain, !kpi_container_chain by assumption.
  cbn [first_some].
  destruct (column_mapping df row "kpi"); [reflexivity |].
  destruct (column_mapping df row "computed.kpi"); [reflexivity |].
  destruct (container_mapping rt df row "computed"); [reflexivity |].
  destruct (column_mapping df row "v1legacy.kpi"); [reflexivity |].
  destruct (container_mapping rt df row "v1legacy"); reflexivity.
Qed.

Lemma kpi_candidate_chain_witness :
  Company.kpi_of_row rt_strict (DataFrame [Examples.kpi_clash]) Examples.kpi_clash =
  Company.extract_kpi_from_record rt_strict Examples.kpi_clash
    (dict_get Examples.kpi_clash "kpi" VNone).
Proof.
  apply (kpi_candidate_chain rt_strict (DataFrame [Examples.kpi_clash]) Examples.kpi_clash).
  repeat constructor.
Defined.

(** C6.  A record whose first candidate (the top-level [kpi]) is an empty
    mapping and whose second (the flattened [computed.kpi]) is a non-empty
    one: the loop stops at the first and the record has no row in
    [07_kpi_data], though the second alone gives the row of 2022.  The same
    empty mapping under the [computed] container (candidate 3) is passed
    over, and the next candidate is used. *)
Theorem kpi_empty_mapping_shadows (rt : runtime) :
  dict_get Examples.kpi_shadowed "kpi" VNone = VDict [] /\
  Company.kpi_of_row rt (DataFrame [Examples.kpi_shadowed]) Examples.kpi_shadowed
    = Ok [] /\
  Company.extract_kpi_from_record rt Examples.kpi_shadowed
    (dict_get Examples.kpi_shadowed "computed.kpi" VNone) =
  Ok [[("company_name", VStr "Acme"); ("siren", VStr "123456789");
       ("siret", VStr "12345678901234"); ("year", VStr "2022"); ("ca", VInt 10)]] /\
  Company.kpi_of_row rt (DataFrame [Examples.kpi_nested]) Examples.kpi_nested =
  Ok [[("company_name", VStr "Acme"); ("siren", VStr "123456789");
       ("siret", VStr "12345678901234"); ("year", VStr "2022"); ("ca", VInt 10)]].
Proof. repeat split; reflexivity. Qed.

(** ** The company name of a chunk *)

Lemma fillna_all_na (s : list pyval) :
  Company.all_na s = true -> Company.fillna s = map (fun _ => VStr "") s.
Proof.
  unfold Company.all_na, Company.fillna.
  induction s as [| v s IH]; cbn [forallb map]; [reflexivity |].
  intros H. apply andb_prop in H as [Hv Hs]. now rewrite Hv, IH.
Qed.

Lemma map_const {A B C : Type} (c : C) (l : list A) (l' : list B) :
  List.length l = List.length l' -> map (fun _ => c) l = map (fun _ => c) l'.
Proof.
  revert l'. induction l as [| a l IH]; intros [| b l'] H; try discriminate H;
    cbn [map]; [reflexivity |].
  f_equal. apply IH. now injection H.
Qed.

Lemma column_length (df : frame) (col : string) :
  List.length (Company.column df col) = List.length (rows df).
Proof. apply length_map. Qed.

Lemma safe_get_length (df : frame) (col : string) (default : pyval) :
  List.length (Company.safe_get df col default) = List.length (rows df).
Proof. unfold Company.safe_get. destruct (has_col df col); apply length_map. Qed.

Lemma series_not_empty (df : frame) (s : list pyval) :
  rows df <> [] -> List.length s = List.length (rows df) ->
  Company.series_empty s = false.
Proof.
  intros H L. destruct s; [| reflexivity].
  destruct (rows df); [congruence | discriminate L].
Qed.

(** The loop over the alternative columns finds the first one that is in
    the frame and not null throughout. *)
Lemma name_fallback_find (df : frame) :
  rows df <> [] ->
  forall alts series,
    Company.all_na series = true ->
    List.length series = List.length (rows df) ->
    Company.fillna (Company.name_fallback df alts series) =
    match find (fun c => has_col df c && negb (Company.all_na (Company.column df c)))
               alts with
    | Some c => Company.fillna (Company.column df c)
    | None => map (fun _ => VStr "") (rows df)
    end.
Proof.
  intros Hr. induction alts as [| alt alts IH]; intros series Ha Hl;
    cbn [Company.name_fallback find].
  - rewrite (fillna_all_na _ Ha). now apply map_const.
  - unfold Company.safe_get. destruct (has_col df alt) eqn:Hc; cbn [andb].
    + rewrite (series_not_empty df _ Hr (column_length df alt)). cbn [negb andb].
      destruct (Company.all_na (Company.column df alt)) eqn:Hn; cbn [negb];
        [| reflexivity].
      apply IH; [exact Hn | apply column_length].
    + now apply IH.
Qed.

Lemma name_series_length (df : frame) :
  List.length (Company.company_name_series df) = List.length (rows df).
Proof.
  assert (F : forall alts series,
             List.length series = List.length (rows df) ->
             List.length (Company.name_fallback df alts series) =
             List.length (rows df)).
  { induction alts as [| alt alts IH]; intros series H; cbn [Company.name_fallback];
      [exact H |].
    destruct (has_col df alt); [| now apply IH].
    destruct (_ && _); [apply safe_get_length | apply IH, safe_get_length]. }
  unfold Company.company_name_series.
  destruct (_ || _); [apply F |]; apply safe_get_length.
Qed.

Lemma mapM_length {A B : Type} (f : A -> result B) (l : list A) :
  forall bs, mapM f l = Ok bs -> List.length bs = List.length l.
Proof.
  induction l as [| a l IH]; intros bs H; cbn [mapM] in H.
  - now injection H as <-.
  - destruct (f a); [| discriminate H]. cbn [bind] in H.
    destruct (mapM f l) as [bs' |]; [| discriminate H]. cbn [bind] in H.
    injection H as <-. cbn [List.length]. f_equal. now apply IH.
Qed.

Lemma zip3_names (a b : list pyval) :
  forall c,
    List.length b = List.length a -> List.length c = List.length a ->
    company_names (Company.zip3 a b c) = a.
Proof.
  revert b. induction a as [| x a IH]; intros [| y b] [| z c] Hb Hc;
    try discriminate Hb; try discriminate Hc; [reflexivity |].
  cbn [Company.zip3 company_names map]. f_equal.
  apply IH; [now injection Hb | now injection Hc].
Qed.

Lemma base_index_names (rt : runtime) (df : frame) (index : list pydict) :
  Company.base_index rt df = Ok index ->
  company_names index = Company.fillna (Company.company_name_series df).
Proof.
  unfold Company.base_index. intros H.
  destruct (mapM _ _) as [sirets |] eqn:E; [| discriminate H].
  cbn [bind] in H. injection H as <-.
  apply mapM_length in E. rewrite safe_get_length in E.
  apply zip3_names.
  - unfold Company.fillna, Company.astype_str.
    now rewrite !length_map, safe_get_length, name_series_length.
  - unfold Company.fillna. now rewrite length_map, name_series_length.
Qed.

(** C7 (as amended).  The company name is resolved for the chunk as a whole.
    In a non-empty chunk that has a [socialName] column: when some record
    has a non-null [socialName], every record gets its own [socialName]
    cell, the empty string where it is null, and no other field is
    consulted; when the column is null in every record, the first of
    [label], [name], [raison_sociale] that is a column with a non-null cell
    supplies the names of all the records (the empty string where its cell
    is null), and every name is empty when there is none. *)
Theorem company_name_per_chunk (rt : runtime) (df : frame) (index : list pydict) :
  Company.base_index rt df = Ok index ->
  has_col df "socialName" = true ->
  rows df <> [] ->
  company_names index =
  if Company.all_na (Company.column df "socialName") then
    match find (fun c => has_col df c && negb (Company.all_na (Company.column df c)))
               Company.alt_cols with
    | Some c => Company.fillna (Company.column df c)
    | None => map (fun _ => VStr "") (rows df)
    end
  else Company.fillna (Company.column df "socialName").
Proof.
  intros Hi Hc Hr. rewrite (base_index_names rt df index Hi).
  unfold Company.company_name_series, Company.safe_get. rewrite Hc.
  rewrite (series_not_empty df _ Hr (column_length df "socialName")). cbn [orb].
  destruct (Company.all_na (Company.column df "socialName")) eqn:Hn; [| reflexivity].
  apply (name_fallback_find df Hr); [exact Hn | apply column_length].
Qed.

Lemma company_name_per_chunk_witness :
  exists index,
    Company.base_index rt_strict Examples.unnamed_chunk = Ok index /\
    company_names index = [VStr "Bolt"; VStr ""].
Proof.
  eexists. split; [reflexivity |].
  apply (company_name_per_chunk rt_strict Examples.unnamed_chunk);
    [reflexivity | reflexivity | discriminate].
Defined.

(** A chunk where a record with an empty [socialName] and a record without
    one both have a [label]: their company names are empty. *)
Lemma company_name_counterexample :
  exists index,
    Company.base_index rt_strict Examples.names_chunk = Ok index /\
    company_names index = [VStr "Acme"; VStr ""; VStr ""] /\
    Company.column Examples.names_chunk "socialName" = [VStr "Acme"; VStr ""; NaN] /\
    Company.column Examples.names_chunk "label" =
      [VStr "Acme SA"; VStr "Bolt"; VStr "Cargo"].
Proof. eexists. repeat split; reflexivity. Qed.

(** ** The catalog: column order *)

Lemma insert_perm (c : string) (l : list string) :
  Permutation (c :: l) (Catalog.insert c l).
Proof.
  induction l as [| d l IH]; cbn [Catalog.insert]; [reflexivity |].
  destruct (String.leb c d); [reflexivity |].
  rewrite perm_swap. now constructor.
Qed.

Lemma sorted_perm (l : list string) : Permutation l (Catalog.sorted l).
Proof.
  induction l as [| c l IH]; cbn [Catalog.sorted]; [constructor |].
  rewrite <- insert_perm. now constructor.
Qed.

Lemma insert_sorted (c : string) (l : list string) :
  Sorted leb_rel l -> Sorted leb_rel (Catalog.insert c l).
Proof.
  induction 1 as [| d l Hs IH Hd]; cbn [Catalog.insert].
  - repeat constructor.
  - destruct (String.leb c d) eqn:E.
    + constructor; [now constructor | now constructor].
    + constructor; [exact IH |].
      assert (Hdc : leb_rel d c).
      { destruct (String.leb_total c d) as [H | H]; [congruence | exact H]. }
      destruct Hd as [| e l' Hde]; cbn [Catalog.insert]; [now constructor |].
      destruct (String.leb c e); now constructor.
Qed.

Lemma sorted_sorted (l : list string) : Sorted leb_rel (Catalog.sorted l).
Proof.
  induction l as [| c l IH]; cbn [Catalog.sorted]; [constructor |].
  now apply insert_sorted.
Qed.

(** Sorting a sorted list changes nothing. *)
Lemma sorted_fixpoint (l : list string) :
  Sorted leb_rel l -> Catalog.sorted l = l.
Proof.
  induction 1 as [| d l Hs IH Hd]; cbn [Catalog.sorted]; [reflexivity |].
  rewrite IH. destruct Hd as [| e l' Hde]; cbn [Catalog.insert]; [reflexivity |].
  now rewrite Hde.
Qed.

Lemma mem_in (c : string) (l : list string) :
  Catalog.mem c l = true <-> In c l.
Proof.
  unfold Catalog.mem. rewrite existsb_exists. split.
  - intros (x & Hx & E). apply String.eqb_eq in E. now subst.
  - intros H. exists c. split; [exact H | apply String.eqb_refl].
Qed.

Lemma mem_perm (c : string) (l l' : list string) :
  Permutation l l' -> Catalog.mem c l = Catalog.mem c l'.
Proof.
  intros P. destruct (Catalog.mem c l') eqn:E.
  - apply mem_in. apply mem_in in E. now apply (Permutation_in _ (Permutation_sym P)).
  - destruct (Catalog.mem c l) eqn:E'; [| reflexivity].
    apply mem_in in E'. apply (Permutation_in _ P) in E'. apply mem_in in E'.
    congruence.
Qed.

Lemma mem_app (c : string) (l l' : list string) :
  Catalog.mem c (l ++ l')%list = Catalog.mem c l || Catalog.mem c l'.
Proof. apply existsb_app. Qed.

Lemma mem_filter (c : string) (p : string -> bool) (l : list string) :
  Catalog.mem c (filter p l) = Catalog.mem c l && p c.
Proof.
  apply Bool.eq_iff_eq_true.
  rewrite andb_true_iff, !mem_in, filter_In. tauto.
Qed.

(** Every label of the frame is among the ordered columns, and only they. *)
Lemma mem_sorted_cols (df : frame) (c : string) :
  Catalog.mem c (Catalog.sorted_cols df) = Catalog.mem c (columns df).
Proof.
  unfold Catalog.sorted_cols. rewrite mem_app.
  rewrite <- (mem_perm c _ _ (sorted_perm _)), !mem_filter.
  destruct (Catalog.mem c (columns df)), (Catalog.mem c Catalog.index_cols);
    reflexivity.
Qed.

Lemma filter_all {A : Type} (p : A -> bool) (l : list A) :
  Forall (fun a => p a = true) l -> filter p l = l.
Proof.
  induction 1 as [| a l Ha _ IH]; cbn [filter]; [reflexivity |].
  now rewrite Ha, IH.
Qed.

Lemma filter_none {A : Type} (p : A -> bool) (l : list A) :
  Forall (fun a => p a = false) l -> filter p l = [].
Proof.
  induction 1 as [| a l Ha _ IH]; cbn [filter]; [reflexivity |].
  now rewrite Ha, IH.
Qed.

Lemma others_not_index (l : list string) :
  Forall (fun c => negb (Catalog.mem c Catalog.index_cols) = true)
         (Catalog.sorted (filter (fun c => negb (Catalog.mem c Catalog.index_cols)) l)).
Proof.
  apply Forall_forall. intros c H.
  apply (Permutation_in _ (Permutation_sym (sorted_perm _))) in H.
  now apply filter_In in H.
Qed.

Lemma filter_partition_perm {A : Type} (p : A -> bool) (l : list A) :
  Permutation l (filter p l ++ filter (fun a => negb (p a)) l)%list.
Proof.
  induction l as [| a l IH]; cbn [filter]; [constructor |].
  destruct (p a); cbn [negb app].
  - now constructor.
  - now apply Permutation_cons_app.
Qed.

(** The column order of a tidied table.  For a frame with at least one
    row and one column, whose labels are distinct, [DatasetCatalog] puts
    first those of [company_name], [siren], [siret] that the frame has, in
    that order, and then the other labels in ascending order; the labels
    are the same as before, each once. *)
Theorem catalog_column_order (df : frame) :
  Catalog.df_empty df = false ->
  NoDup (columns df) ->
  exists others,
    columns (Catalog.tidy df) =
      (filter (fun c => Catalog.mem c (columns df)) Catalog.index_cols ++ others)%list /\
    Forall (fun c => is_identity_col c = false) others /\
    Sorted leb_rel others /\
    Permutation (columns df) (columns (Catalog.tidy df)).
Proof.
  intros He Hn. unfold Catalog.tidy. rewrite He.
  cbn [Catalog.select columns]. unfold Catalog.sorted_cols.
  eexists. split; [reflexivity |]. split; [| split].
  - eapply Forall_impl; [| apply others_not_index].
    intros c H. unfold is_identity_col. now apply negb_true_iff.
  - apply sorted_sorted.
  - rewrite (filter_partition_perm (fun c => Catalog.mem c Catalog.index_cols) (columns df))
      at 1.
    apply Permutation_app; [| apply sorted_perm].
    apply NoDup_Permutation.
    + now apply NoDup_filter.
    + apply NoDup_filter. repeat constructor; cbn; intuition discriminate.
    + intros c. rewrite !filter_In, <- !mem_in. tauto.
Qed.

Lemma catalog_column_order_witness :
  exists others,
    columns (Catalog.tidy Samples.city_frame) =
      (["company_name"; "siret"] ++ others)%list /\
    Sorted leb_rel others /\
    Permutation (columns Samples.city_frame) (columns (Catalog.tidy Samples.city_frame)).
Proof.
  destruct (catalog_column_order Samples.city_frame) as (others & E & _ & S & P).
  - reflexivity.
  - repeat constructor; cbn; intuition discriminate.
  - exists others. split; [exact E | split; [exact S | exact P]].
Defined.

(** ** The catalog: idempotence and cells *)

Lemma selected_cell (r : pydict) (cols : list string) (c : string) :
  Catalog.mem c cols = true ->
  row_get (map (fun c => (c, row_get r c)) cols) c = row_get r c.
Proof.
  unfold Catalog.mem, row_get at 1, dict_get at 1.
  induction cols as [| d cols IH]; intros H; cbn [existsb map dict_find] in *;
    [discriminate H |].
  destruct (String.eqb c d) eqn:E.
  - apply String.eqb_eq in E. now subst d.
  - cbn [orb] in H. now apply IH.
Qed.

Lemma sorted_cols_nonempty (df : frame) :
  columns df <> [] -> Catalog.sorted_cols df <> [].
Proof.
  intros H E. destruct (columns df) as [| c cols] eqn:Ec; [congruence |].
  assert (M : Catalog.mem c (Catalog.sorted_cols df) = true).
  { rewrite mem_sorted_cols, Ec. cbn. now rewrite String.eqb_refl. }
  rewrite E in M. discriminate M.
Qed.

Lemma sorted_cols_select (df : frame) :
  Catalog.sorted_cols (Catalog.select df (Catalog.sorted_cols df)) =
  Catalog.sorted_cols df.
Proof.
  unfold Catalog.sorted_cols at 1. cbn [Catalog.select columns].
  transitivity
    (filter (fun c => Catalog.mem c (columns df)) Catalog.index_cols ++
     Catalog.sorted
       (filter (fun c => negb (Catalog.mem c Catalog.index_cols)) (columns df)))%list;
    [| reflexivity].
  f_equal.
  - apply filter_ext_in. intros c _. apply mem_sorted_cols.
  - unfold Catalog.sorted_cols. rewrite filter_app.
    rewrite (filter_none _ (filter _ Catalog.index_cols)).
    + cbn [app]. rewrite (filter_all _ _ (others_not_index _)).
      apply sorted_fixpoint, sorted_sorted.
    + apply Forall_forall. intros c H. apply filter_In in H as [H _].
      apply mem_in in H. now rewrite H.
Qed.

(** Tidying twice is tidying once, for a frame whose labels are
    distinct. *)
Theorem catalog_idempotent (df : frame) :
  NoDup (columns df) ->
  Catalog.tidy (Catalog.tidy df) = Catalog.tidy df.
Proof.
  intros _. unfold Catalog.tidy at 2. destruct (Catalog.df_empty df) eqn:He.
  - unfold Catalog.tidy. now rewrite He.
  - assert (Hc : columns df <> []) by (intros E; unfold Catalog.df_empty in He; now rewrite E in He).
    assert (Hr : rows df <> []).
    { intros E. unfold Catalog.df_empty in He. rewrite E in He.
      now destruct (columns df). }
    unfold Catalog.tidy. rewrite He.
    replace (Catalog.df_empty (Catalog.select df (Catalog.sorted_cols df))) with false.
    + rewrite sorted_cols_select. unfold Catalog.select. cbn [rows columns].
      f_equal. rewrite map_map. apply map_ext. intros r.
      apply map_ext_in. intros c Hin. f_equal.
      apply selected_cell. now apply mem_in.
    + symmetry. unfold Catalog.df_empty. cbn [Catalog.select columns rows].
      pose proof (sorted_cols_nonempty df Hc).
      destruct (Catalog.sorted_cols df); [congruence |].
      now destruct (rows df).
Qed.

Lemma catalog_idempotent_witness :
  Catalog.tidy (Catalog.tidy Samples.city_frame) = Catalog.tidy Samples.city_frame.
Proof.
  apply (catalog_idempotent Samples.city_frame).
  repeat constructor; cbn; intuition discriminate.
Defined.

(** Tidying keeps the rows and their cells, for a frame whose labels are
    distinct: row by row, every cell of a column of the frame is what it
    was; an empty frame is returned as it is. *)
Theorem catalog_keeps_cells (df : frame) :
  NoDup (columns df) ->
  (Catalog.df_empty df = true -> Catalog.tidy df = df) /\
  Forall2 (fun r out => forall c, In c (columns df) -> row_get out c = row_get r c)
          (rows df) (rows (Catalog.tidy df)).
Proof.
  intros _. unfold Catalog.tidy. destruct (Catalog.df_empty df); split; try easy.
  - clear. induction (rows df); constructor; auto.
  - cbn [Catalog.select rows]. apply Forall2_map_self.
    intros r c Hc. apply selected_cell.
    rewrite mem_sorted_cols. now apply mem_in.
Qed.

Lemma catalog_keeps_cells_witness :
  Forall2 (fun r out =>
             forall c, In c (columns Samples.city_frame) -> row_get out c = row_get r c)
          (rows Samples.city_frame) (rows (Catalog.tidy Samples.city_frame)).
Proof.
  apply (proj2 (catalog_keeps_cells Samples.city_frame
                  ltac:(repeat constructor; cbn; intuition discriminate))).
Defined.

(** [transform] tidies each table under its name, in the order given. *)
Lemma catalog_transform_names (datasets : list (string * frame)) :
  map fst (Catalog.transform datasets) = map fst datasets.
Proof. unfold Catalog.transform. rewrite map_map. reflexivity. Qed.

(** ** The list resolver *)

(** [safe_get_list] gives a list cell back whole or not at all, never an
    empty list, and gives nothing for a cell that is not a list: a string
    is not taken for a list of characters, nor a dict for a list of keys. *)
Theorem safe_get_list_shape (rt : runtime) (v : pyval) :
  safe_get_list rt v <> Some [] /\
  match v with
  | VList l => safe_get_list rt v = Some l \/ safe_get_list rt v = None
  | _ => safe_get_list rt v = None
  end.
Proof.
  unfold safe_get_list. destruct v as [| b | z | f | s | l | d];
    try (split; [discriminate | reflexivity]).
  - destruct f; split; try discriminate; reflexivity.
  - destruct (mask_bool rt (pd_isna (VList l))) as [[|] |];
      destruct l as [| x l]; cbn [List.length Nat.ltb Nat.leb];
      split; try discriminate; auto.
Qed.

(** ** The rows of the article expander *)

Lemma article_row_keys (rt : runtime) (row : pydict) (x y z : pyval) :
  keys (Article.create_article_row rt row
          [("company_name", x); ("siren", y); ("siret", z)]) = article_columns.
Proof. reflexivity. Qed.

Lemma article_index_shape (rt : runtime) (company : pyval) (bi : pydict) :
  Article.company_index rt company = Ok bi ->
  exists x y z, bi = [("company_name", x); ("siren", y); ("siret", z)].
Proof.
  destruct company; cbn [Article.company_index];
    try (intros H; injection H as <-; do 3 eexists; reflexivity).
  destruct (format_siret rt _); [| discriminate].
  cbn [bind]. intros H. injection H as <-. do 3 eexists. reflexivity.
Qed.

Lemma mapM_forall {A B : Type} (f : A -> result B) (P : B -> Prop) (l : list A) :
  (forall a b, f a = Ok b -> P b) ->
  forall bs, mapM f l = Ok bs -> Forall P bs.
Proof.
  intros H. induction l as [| a l IH]; intros bs E; cbn [mapM] in E.
  - injection E as <-. constructor.
  - destruct (f a) as [b |] eqn:Ea; [| discriminate E]. cbn [bind] in E.
    destruct (mapM f l) as [bs' |]; [| discriminate E]. cbn [bind] in E.
    injection E as <-. constructor; [now apply (H a) | now apply IH].
Qed.

(** The rows an article row fans out to all come from
    [_create_article_row] on an identity key of three cells. *)
Lemma article_rows_made (rt : runtime) (row : pydict) (out : list pydict) :
  Article.extract_row rt row = Ok out ->
  Forall (fun r => exists x y z,
              r = Article.create_article_row rt row
                    [("company_name", x); ("siren", y); ("siret", z)]) out.
Proof.
  unfold Article.extract_row.
  destruct (Article.resolve_companies rt row) as [| c cs].
  - intros H. injection H as <-. repeat constructor. do 3 eexists. reflexivity.
  - apply mapM_forall. intros a b H.
    destruct (Article.company_index rt a) as [bi |] eqn:E; [| discriminate H].
    cbn [bind] in H. injection H as <-.
    destruct (article_index_shape rt a bi E) as (x & y & z & ->).
    do 3 eexists. reflexivity.
Qed.

(** Every row of [09_articles] has the same fifteen columns, in the same
    order. *)
Theorem article_row_schema (rt : runtime) (row : pydict) (out : list pydict) :
  Article.extract_row rt row = Ok out ->
  Forall (fun r => keys r = article_columns) out.
Proof.
  intros H. eapply Forall_impl; [| exact (article_rows_made rt row out H)].
  intros r (x & y & z & ->). apply article_row_keys.
Qed.

Lemma article_row_schema_witness :
  exists out,
    Article.extract_row rt_strict Examples.article_row = Ok out /\
    Forall (fun r => keys r = article_columns) out.
Proof.
  eexists. split; [reflexivity |].
  now apply (article_row_schema rt_strict Examples.article_row).
Defined.

Lemma dict_find_update_same (u d d' : pydict) (k : string) :
  dict_find d k = dict_find d' k ->
  dict_find (dict_update d u) k = dict_find (dict_update d' u) k.
Proof.
  unfold dict_update. revert d d'.
  induction u as [| [k0 v0] u IH]; intros d d' H; cbn [fold_left]; [exact H |].
  apply IH. cbn [fst snd]. rewrite !dict_find_set. now rewrite H.
Qed.

(** The rows of one article differ in their identity key only: every other
    cell is the same in all of them. *)
Theorem article_shared_columns (rt : runtime) (row : pydict) (out : list pydict) :
  Article.extract_row rt row = Ok out ->
  forall r r' c,
    In r out -> In r' out -> is_identity_col c = false ->
    dict_find r c = dict_find r' c.
Proof.
  intros H r r' c Hr Hr' Hc.
  pose proof (article_rows_made rt row out H) as F.
  rewrite Forall_forall in F.
  destruct (F r Hr) as (x & y & z & ->).
  destruct (F r' Hr') as (x' & y' & z' & ->).
  unfold Article.create_article_row. apply dict_find_update_same.
  unfold is_identity_col, Catalog.mem, Catalog.index_cols in Hc.
  cbn [existsb] in Hc. rewrite !orb_false_iff in Hc.
  destruct Hc as (H1 & H2 & H3 & _).
  cbn [dict_find]. now rewrite H1, H2, H3.
Qed.

Lemma article_shared_columns_witness :
  exists out r r',
    Article.extract_row rt_strict Examples.article_row = Ok out /\
    out = [r; r'] /\ dict_find r "title" = dict_find r' "title".
Proof.
  do 3 eexists. split; [reflexivity |]. split; [reflexivity |].
  apply (article_shared_columns rt_strict Examples.article_row _ eq_refl);
    [now left | now right; left | reflexivity].
Defined.

(** ** The rows of the signal expander *)

Lemma signal_row_keys (rt : runtime) (row : pydict) (x y z : pyval) :
  keys (Signal.create_signal_row rt row
          [("company_name", x); ("siren", y); ("siret", z)]) = signal_columns.
Proof. reflexivity. Qed.

(** What [extract_row] appends: the one row of a signal with no
    association, or the company rows followed by the SIRET rows. *)
Lemma signal_extract_rows (rt : runtime) (row : pydict) (out : list pydict) :
  Signal.extract_row rt row = Ok out ->
  out = [Signal.create_signal_row rt row empty_index] \/
  exists rs,
    mapM (fun siret_info =>
            base_index <- Signal.siret_index rt siret_info ;;
            Ok (Signal.create_signal_row rt row base_index))
         (Signal.resolve_sirets rt row) = Ok rs /\
    out = (map (fun company =>
                  Signal.create_signal_row rt row (Signal.company_index rt company))
               (Signal.resolve_companies rt row) ++ rs)%list.
Proof.
  unfold Signal.extract_row. intros E.
  destruct (Signal.resolve_companies rt row) as [| c cs].
  - destruct (Signal.resolve_sirets rt row) as [| s ss].
    + left. now injection E as <-.
    + right. destruct (mapM _ (s :: ss)) as [rs |]; [| discriminate E].
      cbn [bind] in E. injection E as <-. now exists rs.
  - right. destruct (mapM _ (Signal.resolve_sirets rt row)) as [rs |];
      [| discriminate E].
    cbn [bind] in E. injection E as <-. now exists rs.
Qed.

Lemma signal_rows_made (rt : runtime) (row : pydict) (out : list pydict) :
  Signal.extract_row rt row = Ok out ->
  Forall (fun r => exists x y z,
              r = Signal.create_signal_row rt row
                    [("company_name", x); ("siren", y); ("siret", z)]) out.
Proof.
  intros E. destruct (signal_extract_rows rt row out E) as [-> | (rs & Em & ->)].
  - repeat constructor. do 3 eexists. reflexivity.
  - apply Forall_app. split.
    + apply Forall_map, Forall_forall. intros a _.
      destruct a; do 3 eexists; reflexivity.
    + revert Em. apply mapM_forall. intros a b H.
      unfold Signal.siret_index in H.
      destruct (match a with
                | VDict d => format_siret rt (dict_get d "siret" (VStr ""))
                | _ => format_siret rt a
                end); [| discriminate H].
      cbn [bind] in H. injection H as <-. do 3 eexists. reflexivity.
Qed.

(** Every row of [08_signals] has the same seventeen columns, in the same
    order, and [isMain] is true in each. *)
Theorem signal_row_schema (rt : runtime) (row : pydict) (out : list pydict) :
  Signal.extract_row rt row = Ok out ->
  Forall (fun r => keys r = signal_columns /\ dict_find r "isMain" = Some (VBool true))
         out.
Proof.
  intros H. eapply Forall_impl; [| exact (signal_rows_made rt row out H)].
  intros r (x & y & z & ->). split; reflexivity.
Qed.

Lemma signal_row_schema_witness :
  exists out,
    Signal.extract_row rt_strict Examples.signal_row = Ok out /\
    Forall (fun r => keys r = signal_columns /\ dict_find r "isMain" = Some (VBool true))
           out.
Proof.
  eexists. split; [reflexivity |].
  now apply (signal_row_schema rt_strict Examples.signal_row).
Defined.

(** ** The count columns of an article row *)

Lemma article_row_list_count (rt : runtime) (l : list pyval) :
  Forall (fun x => is_list x = false) l ->
  Z.of_nat (List.length (Article.row_list rt (VList l) [])) = counted l.
Proof.
  intros F. unfold Article.row_list, pd_isna.
  rewrite (np_shape_flat l F).
  destruct l as [| a [| b l]]; cbn [map mask_bool counted].
  - destruct (numpy rt); reflexivity.
  - cbn [bind try_or]. now destruct (checknull a).
  - reflexivity.
Qed.

(** In an article row, [companies_count] and [all_companies_count] are 1
    for a list cell holding a single non-null reference and 0 for any other
    list of references, whatever its length. *)
Theorem article_count_columns (rt : runtime) (row base_index : pydict)
    (cs acs : list pyval) :
  row_get row "companies" = VList cs ->
  row_get row "all_companies" = VList acs ->
  Forall (fun x => is_list x = false) cs ->
  Forall (fun x => is_list x = false) acs ->
  let r := Article.create_article_row rt row base_index in
  dict_find r "companies_count" = Some (VInt (counted cs)) /\
  dict_find r "all_companies_count" = Some (VInt (counted acs)).
Proof.
  intros E1 E2 F1 F2 r. unfold r, Article.create_article_row, dict_update.
  cbn [fold_left fst snd]. rewrite !dict_find_set. cbn [String.eqb Ascii.eqb Bool.eqb].
  rewrite E1, E2. unfold Article.count.
  now rewrite !article_row_list_count.
Qed.

Lemma article_count_columns_witness :
  dict_find (Article.create_article_row rt_strict Samples.counted_row empty_index)
    "companies_count" = Some (VInt 0) /\
  dict_find (Article.create_article_row rt_strict Samples.counted_row empty_index)
    "all_companies_count" = Some (VInt 1).
Proof.
  apply (article_count_columns rt_strict Samples.counted_row empty_index
           [Samples.acme_ref; Samples.bolt_ref] [Samples.acme_ref] eq_refl eq_refl);
    repeat constructor.
Defined.

(** ** The SIREN of a SIRET entry *)

Lemma append_assoc (s t u : string) : (s ++ t) ++ u = s ++ (t ++ u).
Proof. induction s as [| c s IH]; cbn [append]; [reflexivity | now rewrite IH]. Qed.

Lemma digits_fixed_acc (w : nat) :
  forall n acc, digits_fixed w n acc = digits_fixed w n "" ++ acc.
Proof.
  induction w as [| w IH]; intros n acc; cbn [digits_fixed]; [reflexivity |].
  rewrite IH, (IH _ (String _ "")), append_assoc. reflexivity.
Qed.

Lemma digits_fixed_add (b : nat) :
  forall a n acc,
    digits_fixed (b + a) n acc =
    digits_fixed a (n / 10 ^ Z.of_nat b) (digits_fixed b n acc).
Proof.
  induction b as [| b IH]; intros a n acc.
  - cbn [Nat.add digits_fixed Z.of_nat]. now rewrite Z.pow_0_r, Z.div_1_r.
  - cbn [Nat.add digits_fixed]. rewrite IH.
    rewrite Nat2Z.inj_succ, Z.pow_succ_r, Z.div_div by lia. reflexivity.
Qed.

Lemma substring_prefix (s t : string) :
  String.substring 0 (String.length s) (s ++ t) = s.
Proof.
  induction s as [| c s IH]; cbn [String.length append String.substring].
  - now destruct t.
  - now rewrite IH.
Qed.

(** The first nine characters of the padded SIRET are the padded quotient
    by [10^5]. *)
Lemma siret_prefix (n : Z) :
  String.substring 0 9 (digits_fixed 14 n "") = digits_fixed 9 (n / 100000) "".
Proof.
  change 14%nat with (5 + 9)%nat. rewrite digits_fixed_add, digits_fixed_acc.
  change (10 ^ Z.of_nat 5) with 100000.
  replace 9%nat with (String.length (digits_fixed 9 (n / 100000) "")) at 1
    by (now rewrite digits_fixed_length).
  apply substring_prefix.
Qed.

(** A SIRET entry that is an integer [n] with [0 <= n < 10^14], bare or
    under the key [siret] of a dict, is keyed by the 14 digits of [n], with
    the 9 digits of [n / 10^5] as [siren] and no company name. *)
Theorem siret_entry_key (rt : runtime) (n : Z) (siret_info : pyval) :
  0 <= n < 10 ^ 14 ->
  siret_info = VInt n \/
  (exists d, siret_info = VDict d /\ dict_get d "siret" (VStr "") = VInt n) ->
  Signal.siret_index rt siret_info =
  Ok [("company_name", VStr "");
      ("siren", VStr (digits_fixed 9 (n / 100000) ""));
      ("siret", VStr (digits_fixed 14 n ""))].
Proof.
  intros Hn Hs. unfold Signal.siret_index.
  replace (match siret_info with
           | VDict d => format_siret rt (dict_get d "siret" (VStr ""))
           | _ => format_siret rt siret_info
           end) with (format_siret rt (VInt n))
    by (destruct Hs as [-> | (d & -> & ->)]; reflexivity).
  rewrite format_siret_int, format_014d_small by assumption.
  cbn [bind]. rewrite digits_fixed_length. cbn [String.length Nat.add Nat.leb].
  now rewrite siret_prefix.
Qed.

Lemma siret_entry_key_witness :
  Signal.siret_index rt_strict (VInt 12345678901234) =
  Ok [("company_name", VStr ""); ("siren", VStr "123456789");
      ("siret", VStr "12345678901234")].
Proof.
  apply (siret_entry_key rt_strict 12345678901234); [lia | now left].
Defined.

(** ** One KPI row per year *)

Lemma year_row_cells (base m : pydict) (y : string) :
  plain_metrics (VDict m) = true ->
  let r := dict_update (dict_set base "year" (VStr y)) m in
  dict_find r "year" = Some (VStr y) /\ identity r = identity base.
Proof.
  intros H r. cbn [plain_metrics] in H. unfold no_key in H.
  rewrite !andb_true_iff, !negb_true_iff in H.
  destruct H as (((Hy & H1) & H2) & H3). unfold r. split.
  - rewrite dict_find_update by assumption. now rewrite dict_find_set.
  - rewrite identity_update by assumption.
    unfold identity, dict_get. now rewrite !dict_find_set.
Qed.

Lemma year_rows_cells (base : pydict) (d : pydict) :
  Forall (fun item => plain_metrics (snd item) = true) d ->
  map (fun r => dict_find r "year") (Company.year_rows base d) =
    map (fun item => Some (VStr (fst item))) (filter (fun item => is_dict (snd item)) d) /\
  Forall (fun r => identity r = identity base) (Company.year_rows base d).
Proof.
  unfold Company.year_rows.
  induction 1 as [| [y v] d Hv _ [IH1 IH2]]; cbn [flat_map filter map];
    [split; [reflexivity | constructor] |].
  cbn [fst snd] in *.
  destruct v as [| | | | | | m]; cbn [is_dict app]; try (split; assumption).
  destruct (year_row_cells base m y Hv) as [E1 E2].
  cbn [map fst]. split; [now rewrite E1, IH1 | now constructor].
Qed.

(** For a record whose [socialName], [siren] and [siret] cells are not
    lists, a KPI mapping gives one row per year whose value is a mapping,
    in the order of the mapping, and skips the other years; when the
    metrics of the years name neither [year] nor an identity column, each
    row carries its year as a string and all rows carry the same identity
    key. *)
Theorem kpi_rows_per_year (rt : runtime) (row kpi_data : pydict) :
  is_list (row_get row "socialName") = false ->
  is_list (row_get row "siren") = false ->
  is_list (row_get row "siret") = false ->
  Forall (fun item => plain_metrics (snd item) = true) kpi_data ->
  exists out key,
    Company.extract_kpi_from_record rt row (VDict kpi_data) = Ok out /\
    List.length out = List.length (filter (fun item => is_dict (snd item)) kpi_data) /\
    map (fun r => dict_find r "year") out =
      map (fun item => Some (VStr (fst item)))
          (filter (fun item => is_dict (snd item)) kpi_data) /\
    Forall (fun r => identity r = key) out.
Proof.
  intros H1 H2 H3 F. unfold Company.extract_kpi_from_record, Company.str_if_notna.
  rewrite !mask_bool_notna_scalar by (assumption || reflexivity).
  cbn [bind checknull negb].
  assert (S : exists s,
             (if negb (checknull (row_get row "siret"))
              then format_siret rt (dict_get row "siret" (VStr ""))
              else Ok "") = Ok s).
  { destruct (negb (checknull (row_get row "siret"))) eqn:E; [| now exists ""].
    apply format_siret_returns. unfold row_get, dict_get in *.
    now destruct (dict_find row "siret"). }
  destruct S as [s ->]. cbn [bind].
  destruct (year_rows_cells
              [("company_name",
                VStr (if negb (checknull (row_get row "socialName"))
                      then py_str rt (dict_get row "socialName" (VStr "")) else ""));
               ("siren",
                VStr (if negb (checknull (row_get row "siren"))
                      then py_str rt (dict_get row "siren" (VStr "")) else ""));
               ("siret", VStr s)] kpi_data F) as [E1 E2].
  do 2 eexists. split; [reflexivity |]. split; [| split; [exact E1 | exact E2]].
  rewrite <- (length_map (fun r => dict_find r "year")), E1. apply length_map.
Qed.

Lemma kpi_rows_per_year_witness :
  exists out,
    Company.extract_kpi_from_record rt_strict Examples.kpi_shadowed
      (VDict [("2022", VDict [("ca", VInt 10)]); ("note", VStr "n/a");
              ("2023", VDict [("ca", VInt 12)])]) = Ok out /\
    map (fun r => dict_find r "year") out = [Some (VStr "2022"); Some (VStr "2023")].
Proof.
  destruct (kpi_rows_per_year rt_strict Examples.kpi_shadowed
              [("2022", VDict [("ca", VInt 10)]); ("note", VStr "n/a");
               ("2023", VDict [("ca", VInt 12)])])
    as (out & key & E & _ & Y & _); try reflexivity.
  - repeat constructor.
  - exists out. split; [exact E | exact Y].
Defined.

(** ** The six company tables *)



















(** ** Missing columns, missing keys and cells that are not text *)





Lemma DataFrame_columns (k : string) (records : list pydict) :
  forall cols,
    existsb (String.eqb k) cols = true \/
    Exists (fun r => dict_has r k = true) records ->
    existsb (String.eqb k) (fold_left add_keys records cols) = true.
Proof.
  induction records as [| r records IH]; intros cols H; cbn [fold_left].
  - destruct H as [H | H]; [exact H | inversion H].
  - apply IH. destruct H as [H | H].
    + left. now apply add_keys_keeps.
    + inversion H as [? ? Hr | ? ? Hr]; subst.
      * left. now apply add_keys_adds.
      * now right.
Qed.

Lemma DataFrame_has_col (k : string) (records : list pydict) :
  Exists (fun r => dict_has r k = true) records ->
  has_col (DataFrame records) k = true.
Proof.
  intros H. unfold has_col, DataFrame. cbn [columns].
  apply DataFrame_columns. now right.
Qed.

Lemma DataFrame_cell (records : list pydict) (k : string) (i : nat) :
  has_col (DataFrame records) k = true ->
  (i < List.length records)%nat ->
  row_get (nth i (rows (DataFrame records)) []) k = dict_get (nth i records []) k NaN.
Proof.
  intros Hc Hi. unfold DataFrame. cbn [rows].
  set (g := fun r : pydict =>
              map (fun c => (c, dict_get r c NaN)) (fold_left add_keys records [])).
  rewrite (nth_indep _ [] (g [])) by now rewrite length_map.
  rewrite map_nth. unfold g, row_get, dict_get at 1.
  now rewrite frame_cell.
Qed.

(** A flag of a record that lacks the key, in a chunk where another
    record has it: the cell of the frame is NaN and [.astype(bool)] makes
    it True, whereas the flag is False where no record of the chunk has
    the key. *)
Theorem flag_of_missing_key (records : list pydict) (src : string) (i : nat) :
  Exists (fun r => dict_has r src = true) records ->
  (i < List.length records)%nat ->
  dict_has (nth i records []) src = false ->
  nth i (Tables.flag (DataFrame records) src) VNone = VBool true.
Proof.
  intros He Hi Hk.
  pose proof (DataFrame_has_col src records He) as Hc.
  unfold Tables.flag, Company.safe_get, Company.column. rewrite Hc, map_map.
  set (g := fun r : pydict => VBool (truthy (row_get r src))).
  assert (L : List.length (rows (DataFrame records)) = List.length records)
    by (unfold DataFrame; cbn [rows]; apply length_map).
  rewrite (nth_indep _ VNone (g [])) by now rewrite length_map, L.
  rewrite map_nth. unfold g.
  rewrite (DataFrame_cell records src i Hc Hi).
  unfold dict_has in Hk. unfold dict_get.
  destruct (dict_find (nth i records []) src); [discriminate Hk | reflexivity].
Qed.

Lemma flag_of_missing_key_witness :
  nth 1 (Tables.flag (DataFrame Samples.startup_records) "startup") VNone =
  VBool true.
Proof.
  apply (flag_of_missing_key Samples.startup_records "startup" 1).
  - left. reflexivity.
  - cbn [Samples.startup_records List.length]. lia.
  - reflexivity.
Defined.








(** ** Signals name no company *)

(** No row of [08_signals] names a company.  In every row the signal
    expander emits, [company_name] is the empty string; and either [siret]
    is empty (the row of a company reference, or of a signal with no
    association), or [siren] is the first nine characters of [siret], and
    empty when [siret] is shorter. *)
Theorem signal_rows_unnamed (rt : runtime) (row : pydict) (out : list pydict) :
  Signal.extract_row rt row = Ok out ->
  Forall (fun r =>
            exists siren siret,
              identity r = (VStr "", VStr siren, VStr siret) /\
              (siret = "" \/
               siren = if (9 <=? String.length siret)%nat
                       then String.substring 0 9 siret else ""))
         out.
Proof.
  intros E. destruct (signal_extract_rows rt row out E) as [-> | (rs & Em & ->)].
  - repeat constructor. rewrite signal_row_identity.
    exists "", "". split; [reflexivity | now left].
  - apply Forall_app. split.
    + apply Forall_map, Forall_forall. intros a _.
      rewrite signal_row_identity.
      destruct a; eexists _, ""; (split; [reflexivity | now left]).
    + revert Em. apply mapM_forall. intros a b H.
      unfold Signal.siret_index in H.
      destruct (match a with
                | VDict d => format_siret rt (dict_get d "siret" (VStr ""))
                | _ => format_siret rt a
                end) as [s |]; [| discriminate H].
      cbn [bind] in H. injection H as <-.
      rewrite signal_row_identity.
      eexists _, s. split; [reflexivity | now right].
Qed.

Lemma signal_rows_unnamed_witness :
  exists out,
    Signal.extract_row rt_strict Examples.signal_row = Ok out /\
    Forall (fun r =>
              exists siren siret,
                identity r = (VStr "", VStr siren, VStr siret) /\
                (siret = "" \/
                 siren = if (9 <=? String.length siret)%nat
                         then String.substring 0 9 siret else ""))
           out.
Proof.
  eexists. split; [reflexivity |].
  now apply (signal_rows_unnamed rt_strict Examples.signal_row).
Defined.
